(** * Janus gateway supervision in OctoPrint-Obico: ports, locks, relay

    A shallow embedding of [octoprint_obico/janus.py]: the instance-aware
    port computation ([get_instance_port_offset], [calculate_janus_ports]),
    the supervisor ([JanusConn.start], [kill_janus_if_running], [shutdown])
    and the relay ([pass_to_janus], [process_janus_msg]).

    Python integers are [Z]; text is [string] (the bytes of its UTF-8
    encoding); the lock files under /tmp are a [gmap] from path to file;
    exceptions are an explicit result type threaded with the state. *)

From Stdlib Require Import ZArith List Ascii String Lia.
From stdpp Require Import base option strings pretty gmap.

Local Open Scope Z_scope.

(** ** Digits *)

Definition is_digit (c : ascii) : bool :=
  let n := N_of_ascii c in ((48 <=? n) && (n <=? 57))%N.

Definition digit_value (c : ascii) : Z := Z.of_N (N_of_ascii c) - 48.

Definition hex_value (c : ascii) : option Z :=
  let n := Z.of_N (N_of_ascii c) in
  if is_digit c then Some (n - 48)
  else if (97 <=? n) && (n <=? 102) then Some (n - 87)
  else if (65 <=? n) && (n <=? 70) then Some (n - 55)
  else None.

Fixpoint int_hex_go (acc : Z) (s : string) : option Z :=
  match s with
  | EmptyString => Some acc
  | String c s' =>
      match hex_value c with
      | Some d => int_hex_go (acc * 16 + d) s'
      | None => None
      end
  end.

(** [int(s, 16)] on a string of hexadecimal digits. *)
Definition int_hex (s : string) : option Z :=
  match s with
  | EmptyString => None
  | _ => int_hex_go 0 s
  end.

(** ** SHA-256 ([hashlib.sha256]), FIPS 180-4, on 32-bit words held in [Z] *)

Module Sha256.

Definition mask32 : Z := 0xffffffff.
Definition wrap32 (x : Z) : Z := x mod 2 ^ 32.
Definition add32 (x y : Z) : Z := wrap32 (x + y).

Definition rotr (n x : Z) : Z :=
  Z.lor (Z.shiftr x n) (wrap32 (Z.shiftl x (32 - n))).

Definition ch (x y z : Z) : Z :=
  Z.lxor (Z.land x y) (Z.land (Z.lxor x mask32) z).
Definition maj (x y z : Z) : Z :=
  Z.lxor (Z.lxor (Z.land x y) (Z.land x z)) (Z.land y z).
Definition bsig0 (x : Z) : Z :=
  Z.lxor (Z.lxor (rotr 2 x) (rotr 13 x)) (rotr 22 x).
Definition bsig1 (x : Z) : Z :=
  Z.lxor (Z.lxor (rotr 6 x) (rotr 11 x)) (rotr 25 x).
Definition ssig0 (x : Z) : Z :=
  Z.lxor (Z.lxor (rotr 7 x) (rotr 18 x)) (Z.shiftr x 3).
Definition ssig1 (x : Z) : Z :=
  Z.lxor (Z.lxor (rotr 17 x) (rotr 19 x)) (Z.shiftr x 10).

(** Eight hexadecimal digits per 32-bit word. *)
Fixpoint hex_words (s : string) : list Z :=
  match s with
  | String c0 (String c1 (String c2 (String c3
      (String c4 (String c5 (String c6 (String c7 rest))))))) =>
      match int_hex_go 0 (string_of_list_ascii [c0; c1; c2; c3; c4; c5; c6; c7]) with
      | Some w => w :: hex_words rest
      | None => []
      end
  | _ => []
  end.

(** The first 32 bits of the fractional parts of the cube roots of the
    first 64 primes. *)
Definition round_constants : list Z :=
  hex_words
    ("428a2f9871374491b5c0fbcfe9b5dba53956c25b59f111f1923f82a4ab1c5ed5"
     +:+ "d807aa9812835b01243185be550c7dc372be5d7480deb1fe9bdc06a7c19bf174"
     +:+ "e49b69c1efbe47860fc19dc6240ca1cc2de92c6f4a7484aa5cb0a9dc76f988da"
     +:+ "983e5152a831c66db00327c8bf597fc7c6e00bf3d5a7914706ca635114292967"
     +:+ "27b70a852e1b21384d2c6dfc53380d13650a7354766a0abb81c2c92e92722c85"
     +:+ "a2bfe8a1a81a664bc24b8b70c76c51a3d192e819d6990624f40e3585106aa070"
     +:+ "19a4c1161e376c082748774c34b0bcb5391c0cb34ed8aa4a5b9cca4f682e6ff3"
     +:+ "748f82ee78a5636f84c878148cc7020890befffaa4506cebbef9a3f7c67178f2").

Definition vars : Type := (Z * Z * Z * Z * Z * Z * Z * Z)%type.

Definition initial_hash : vars :=
  (0x6a09e667, 0xbb67ae85, 0x3c6ef372, 0xa54ff53a,
   0x510e527f, 0x9b05688c, 0x1f83d9ab, 0x5be0cd19).

(** Big-endian bytes of [x], [n] of them. *)
Fixpoint be_bytes (n : nat) (x : Z) : list Z :=
  match n with
  | O => []
  | S n' => (Z.shiftr x (8 * Z.of_nat n')) mod 256 :: be_bytes n' x
  end.

Definition be_value (bs : list Z) : Z :=
  fold_left (fun acc b => acc * 256 + b) bs 0.

(** Message padding: 0x80, zeros up to 56 mod 64, the bit length on 8 bytes. *)
Definition pad (msg : list Z) : list Z :=
  let len := Z.of_nat (length msg) in
  let zeros := Z.to_nat ((55 - len) mod 64) in
  msg ++ 0x80 :: repeat 0 zeros ++ be_bytes 8 (8 * len).

Fixpoint words_of (n : nat) (bs : list Z) : list Z :=
  match n with
  | O => []
  | S n' => be_value (firstn 4 bs) :: words_of n' (skipn 4 bs)
  end.

(** The message schedule, most recent word first. *)
Fixpoint extend (n : nat) (ws : list Z) : list Z :=
  match n with
  | O => ws
  | S n' =>
      let w := add32 (add32 (add32 (ssig1 (nth 1 ws 0)) (nth 6 ws 0))
                            (ssig0 (nth 14 ws 0))) (nth 15 ws 0) in
      extend n' (w :: ws)
  end.

Definition schedule (block : list Z) : list Z :=
  rev (extend 48 (rev (words_of 16 block))).

Definition round (v : vars) (kw : Z * Z) : vars :=
  let '(a, b, c, d, e, f, g, h) := v in
  let t1 := add32 (add32 (add32 (add32 h (bsig1 e)) (ch e f g)) (fst kw)) (snd kw) in
  let t2 := add32 (bsig0 a) (maj a b c) in
  (add32 t1 t2, a, b, c, add32 d t1, e, f, g).

Definition compress (hs : vars) (block : list Z) : vars :=
  let '(a, b, c, d, e, f, g, h) :=
    fold_left round (combine round_constants (schedule block)) hs in
  let '(a0, b0, c0, d0, e0, f0, g0, h0) := hs in
  (add32 a0 a, add32 b0 b, add32 c0 c, add32 d0 d,
   add32 e0 e, add32 f0 f, add32 g0 g, add32 h0 h).

Fixpoint blocks (n : nat) (bs : list Z) : list (list Z) :=
  match n with
  | O => []
  | S n' => firstn 64 bs :: blocks n' (skipn 64 bs)
  end.

Definition digest_words (msg : list Z) : list Z :=
  let padded := pad msg in
  let '(a, b, c, d, e, f, g, h) :=
    fold_left compress (blocks (length padded / 64) padded) initial_hash in
  [a; b; c; d; e; f; g; h].

Definition digest (msg : list Z) : list Z :=
  flat_map (be_bytes 4) (digest_words msg).

Definition hex_digit (n : Z) : ascii :=
  match String.get (Z.to_nat n) "0123456789abcdef" with
  | Some c => c
  | None => "0"%char
  end.

Fixpoint hex_of_bytes (bs : list Z) : string :=
  match bs with
  | [] => EmptyString
  | b :: bs' =>
      String (hex_digit (b / 16)) (String (hex_digit (b mod 16)) (hex_of_bytes bs'))
  end.

Definition hexdigest (msg : list Z) : string := hex_of_bytes (digest msg).

End Sha256.

(** [str.encode()]: the text is held as the bytes of its encoding. *)
Fixpoint str_encode (s : string) : list Z :=
  match s with
  | EmptyString => []
  | String c s' => Z.of_N (N_of_ascii c) :: str_encode s'
  end.

(** ** Text helpers: what [int], [str.strip], [str.split] and [startswith] do *)

(** [str.isspace] on ASCII: tab, the line and page breaks, the four
    separators 0x1c to 0x1f, and the space. *)
Definition is_space (c : ascii) : bool :=
  let n := N_of_ascii c in
  (((9 <=? n) && (n <=? 13)) || ((28 <=? n) && (n <=? 32)))%N.

Fixpoint lstrip (s : string) : string :=
  match s with
  | String c s' => if is_space c then lstrip s' else s
  | EmptyString => EmptyString
  end.

Definition rstrip (s : string) : string := String.rev (lstrip (String.rev s)).

Definition strip (s : string) : string := rstrip (lstrip s).

(** Digits of a decimal literal; a single underscore may separate digits. *)
Fixpoint int_digits (acc : Z) (after_digit : bool) (s : string) : option Z :=
  match s with
  | EmptyString => if after_digit then Some acc else None
  | String c s' =>
      if is_digit c then int_digits (acc * 10 + digit_value c) true s'
      else if Ascii.eqb c "_"
           then (if after_digit then int_digits acc false s' else None)
           else None
  end.

(** [int(s)] in base 10; [None] stands for [ValueError]. *)
Definition py_int (s : string) : option Z :=
  match strip s with
  | String "+" r => int_digits 0 false r
  | String "-" r => Z.opp <$> int_digits 0 false r
  | r => int_digits 0 false r
  end.

(** [s.split('=', 1)[1]] for an [s] that holds an '=': what follows the first one. *)
Fixpoint after_first_eq (s : string) : string :=
  match s with
  | EmptyString => EmptyString
  | String c s' => if Ascii.eqb c "=" then s' else after_first_eq s'
  end.

(** ** Module constants *)

Definition JANUS_BASE_PORT : Z := 17730.
Definition JANUS_PORT_GAP : Z := 20.

(** ** Exceptions, the world and the state monad *)

Inductive exn : Type :=
  | FileNotFoundError
  | PermissionError
  | OSError
  | ValueError
  | CalledProcessError
  | TimeoutError.

Inductive result (A : Type) : Type :=
  | Ok (a : A)
  | Raise (e : exn).
Arguments Ok {A} a.
Arguments Raise {A} e.

Inductive level : Type := DEBUG | INFO | WARNING.

Inductive log_record : Type :=
  | LogText (lvl : level) (text : string)
  | LogParsed (lvl : level) (raw : string).

(** A pid file under /tmp: its text, and what the caller may do with it. *)
Record lockfile : Type := mkLockfile {
  lf_content : string;
  lf_readable : bool;
  lf_writable : bool;
  lf_removable : bool
}.

(** The child process handed back by [subprocess.Popen]: its pid, the lines
    its combined output will yield before end-of-stream, its exit code. *)
Record process : Type := mkProcess {
  proc_pid : Z;
  proc_stdout : list string;
  proc_returncode : Z
}.

(** Modelled from the spec: [WebSocketClient] of [octoprint_obico/ws.py] is
    not among the sources; the relay link is connected or not, and [send]
    hands a message to the gateway's control endpoint. *)
Record WebSocketClient : Type := mkWebSocketClient {
  ws_url : string;
  ws_subprotocols : list string;
  ws_connected : bool;
  ws_sent : list string
}.

Record JanusConn : Type := mkJanusConn {
  janus_server : string;
  janus_ws : option WebSocketClient;
  shutting_down : bool
}.

(** What the operating system and the collaborators answer during one call:
    the command line and environment of the host process, the process table
    ([psutil.pid_exists]), the exit status of [kill <arg>], whether the
    bounded waits on a port end in time, what [Popen] yields, whether the
    WebSocket handshake succeeds, whether the upstream delivery fails; and
    the two module-level values the class reads. *)
Record Env : Type := mkEnv {
  sys_argv : list string;
  os_environ : gmap string string;
  proc_cmdline : option (list string);
  default_path : string;
  default_path_exists : bool;
  pid_exists : Z -> bool;
  kill_returncode : string -> Z;
  port_closes : string -> Z -> bool;
  port_opens : string -> Z -> bool;
  popen : list string -> list (string * string) -> exn + process;
  ws_handshake : string -> bool;
  server_send : list (string * string) -> option exn;
  RUNTIME_JANUS_ETC_DIR : string;
  JANUS_WS_PORT : Z
}.

(** What the calls change or leave a trace in: the pid files, the log, the
    exceptions captured by sentry, the arguments [kill] was run with, the
    envelopes delivered upstream, and the [JanusConn] object. *)
Record State : Type := mkState {
  files : gmap string lockfile;
  log : list log_record;
  sentry : list exn;
  signals : list string;
  upstream : list (list (string * string));
  self : JanusConn
}.

Definition set_files (f : gmap string lockfile) (s : State) : State :=
  mkState f (log s) (sentry s) (signals s) (upstream s) (self s).
Definition add_log (r : log_record) (s : State) : State :=
  mkState (files s) (log s ++ [r]) (sentry s) (signals s) (upstream s) (self s).
Definition add_sentry (e : exn) (s : State) : State :=
  mkState (files s) (log s) (sentry s ++ [e]) (signals s) (upstream s) (self s).
Definition add_signal (a : string) (s : State) : State :=
  mkState (files s) (log s) (sentry s) (signals s ++ [a]) (upstream s) (self s).
Definition add_upstream (m : list (string * string)) (s : State) : State :=
  mkState (files s) (log s) (sentry s) (signals s) (upstream s ++ [m]) (self s).
Definition set_self (c : JanusConn) (s : State) : State :=
  mkState (files s) (log s) (sentry s) (signals s) (upstream s) c.

Definition M (A : Type) : Type := State -> result A * State.

Definition ret {A} (a : A) : M A := fun s => (Ok a, s).
Definition raise {A} (e : exn) : M A := fun s => (Raise e, s).
Definition bind {A B} (m : M A) (k : A -> M B) : M B :=
  fun s => match m s with
           | (Ok a, s') => k a s'
           | (Raise e, s') => (Raise e, s')
           end.

(** [try: body / except <classes>: handler]; what the body did to the
    state before raising stays done. *)
Definition try_except {A} (body : M A) (caught : exn -> bool)
    (handler : exn -> M A) : M A :=
  fun s => match body s with
           | (Ok a, s') => (Ok a, s')
           | (Raise e, s') => if caught e then handler e s' else (Raise e, s')
           end.

Definition get_state : M State := fun s => (Ok s, s).
Definition modify (f : State -> State) : M unit := fun s => (Ok tt, f s).

Declare Scope py_scope.
Delimit Scope py_scope with py.
Notation "x <- m ;; k" := (bind m (fun x => k))
  (at level 100, m at next level, right associativity) : py_scope.
Notation "m ;;; k" := (bind m (fun _ => k))
  (at level 100, right associativity) : py_scope.
Local Open Scope py_scope.

Definition any_exception (e : exn) : bool := true.

Definition str_exn (e : exn) : string :=
  match e with
  | FileNotFoundError => "No such file or directory"
  | PermissionError => "Permission denied"
  | OSError => "OSError"
  | ValueError => "invalid literal"
  | CalledProcessError => "Command returned non-zero exit status"
  | TimeoutError => "timed out"
  end.

Definition logger (lvl : level) (text : string) : M unit :=
  modify (add_log (LogText lvl text)).

(** ** The file system calls on pid files *)

Definition os_path_exists (path : string) : M bool :=
  s <- get_state ;; ret (bool_decide (is_Some (files s !! path))).

(** [with open(path, 'r') as f: f.read()] *)
Definition read_text (path : string) : M string :=
  s <- get_state ;;
  match files s !! path with
  | None => raise FileNotFoundError
  | Some f => if lf_readable f then ret (lf_content f) else raise PermissionError
  end.

(** [with open(path, 'w') as f: f.write(text)] *)
Definition write_text (path text : string) : M unit :=
  s <- get_state ;;
  match files s !! path with
  | None => modify (set_files (<[path := mkLockfile text true true true]> (files s)))
  | Some f =>
      if lf_writable f
      then modify (set_files
             (<[path := mkLockfile text (lf_readable f) true (lf_removable f)]> (files s)))
      else raise PermissionError
  end.

Definition os_remove (path : string) : M unit :=
  s <- get_state ;;
  match files s !! path with
  | None => raise FileNotFoundError
  | Some f =>
      if lf_removable f then modify (set_files (delete path (files s)))
      else raise PermissionError
  end.

Definition int_of (text : string) : M Z :=
  match py_int text with
  | Some n => ret n
  | None => raise ValueError
  end.

(** ** [json.loads], as far as the relay needs it: does the text parse?

    One pass over the text with a stack of open containers; the grammar is
    the one [json.loads] accepts by default (RFC 8259 plus the literals
    [NaN], [Infinity] and [-Infinity]; control characters are refused
    inside strings). *)

Module Json.

Inductive ctx : Type := InArray | InObject.

Inductive mode : Type :=
  | Value | ValueOrClose | KeyOrClose | Key | Colon | After
  | Str (key : bool) | Escape (key : bool) | Unicode (key : bool) (n : nat)
  | Minus | Zero | Int | Dot | Frac | Exp | ExpSign | ExpDigits
  | Literal (rest : string).

Definition is_ws (c : ascii) : bool :=
  let n := N_of_ascii c in
  ((n =? 32) || (n =? 9) || (n =? 10) || (n =? 13))%N.

Definition is_hex (c : ascii) : bool :=
  match hex_value c with Some _ => true | None => false end.

Definition is_exp (c : ascii) : bool := Ascii.eqb c "e" || Ascii.eqb c "E".

Definition start_value (c : ascii) (st : list ctx) : option (mode * list ctx) :=
  if Ascii.eqb c "{" then Some (KeyOrClose, InObject :: st)
  else if Ascii.eqb c "[" then Some (ValueOrClose, InArray :: st)
  else if Ascii.eqb c "034" then Some (Str false, st)
  else if Ascii.eqb c "-" then Some (Minus, st)
  else if Ascii.eqb c "0" then Some (Zero, st)
  else if is_digit c then Some (Int, st)
  else if Ascii.eqb c "t" then Some (Literal "rue", st)
  else if Ascii.eqb c "f" then Some (Literal "alse", st)
  else if Ascii.eqb c "n" then Some (Literal "ull", st)
  else if Ascii.eqb c "N" then Some (Literal "aN", st)
  else if Ascii.eqb c "I" then Some (Literal "nfinity", st)
  else None.

Definition after_value (c : ascii) (st : list ctx) : option (mode * list ctx) :=
  if is_ws c then Some (After, st)
  else if Ascii.eqb c "," then
    match st with
    | InArray :: _ => Some (Value, st)
    | InObject :: _ => Some (Key, st)
    | [] => None
    end
  else if Ascii.eqb c "]" then
    match st with InArray :: st' => Some (After, st') | _ => None end
  else if Ascii.eqb c "}" then
    match st with InObject :: st' => Some (After, st') | _ => None end
  else None.

Definition step (m : mode) (st : list ctx) (c : ascii) : option (mode * list ctx) :=
  match m with
  | Value => if is_ws c then Some (Value, st) else start_value c st
  | ValueOrClose =>
      if is_ws c then Some (ValueOrClose, st)
      else if Ascii.eqb c "]" then Some (After, tl st)
      else start_value c st
  | KeyOrClose =>
      if is_ws c then Some (KeyOrClose, st)
      else if Ascii.eqb c "}" then Some (After, tl st)
      else if Ascii.eqb c "034" then Some (Str true, st)
      else None
  | Key =>
      if is_ws c then Some (Key, st)
      else if Ascii.eqb c "034" then Some (Str true, st)
      else None
  | Colon =>
      if is_ws c then Some (Colon, st)
      else if Ascii.eqb c ":" then Some (Value, st)
      else None
  | After => after_value c st
  | Str k =>
      if Ascii.eqb c "034" then Some (if k then Colon else After, st)
      else if Ascii.eqb c "\" then Some (Escape k, st)
      else if (N_of_ascii c <? 32)%N then None
      else Some (Str k, st)
  | Escape k =>
      if Ascii.eqb c "u" then Some (Unicode k 4, st)
      else if existsb (Ascii.eqb c) ("034"%char :: list_ascii_of_string "\/bfnrt")
      then Some (Str k, st)
      else None
  | Unicode k n =>
      if is_hex c
      then Some (match n with
                 | S (S n') => Unicode k (S n')
                 | _ => Str k
                 end, st)
      else None
  | Minus =>
      if Ascii.eqb c "0" then Some (Zero, st)
      else if is_digit c then Some (Int, st)
      else if Ascii.eqb c "I" then Some (Literal "nfinity", st)
      else None
  | Zero =>
      if Ascii.eqb c "." then Some (Dot, st)
      else if is_exp c then Some (Exp, st)
      else after_value c st
  | Int =>
      if is_digit c then Some (Int, st)
      else if Ascii.eqb c "." then Some (Dot, st)
      else if is_exp c then Some (Exp, st)
      else after_value c st
  | Dot => if is_digit c then Some (Frac, st) else None
  | Frac =>
      if is_digit c then Some (Frac, st)
      else if is_exp c then Some (Exp, st)
      else after_value c st
  | Exp =>
      if is_digit c then Some (ExpDigits, st)
      else if Ascii.eqb c "+" || Ascii.eqb c "-" then Some (ExpSign, st)
      else None
  | ExpSign => if is_digit c then Some (ExpDigits, st) else None
  | ExpDigits => if is_digit c then Some (ExpDigits, st) else after_value c st
  | Literal rest =>
      match rest with
      | String c' r =>
          if Ascii.eqb c c'
          then Some (match r with EmptyString => After | _ => Literal r end, st)
          else None
      | EmptyString => None
      end
  end.

Definition complete (m : mode) (st : list ctx) : bool :=
  match st, m with
  | [], (After | Zero | Int | Frac | ExpDigits) => true
  | _, _ => false
  end.

Fixpoint run (m : mode) (st : list ctx) (s : string) : bool :=
  match s with
  | EmptyString => complete m st
  | String c s' =>
      match step m st c with
      | Some (m', st') => run m' st' s'
      | None => false
      end
  end.

Definition valid (s : string) : bool := run Value [] s.

End Json.

(** Test texts are written with single quotes; [dq] turns each into the
    double quote of JSON. *)
Fixpoint dq (s : string) : string :=
  match s with
  | EmptyString => EmptyString
  | String c s' => String (if Ascii.eqb c "'" then "034"%char else c) (dq s')
  end.

(** ** Module-level functions of [janus.py] *)

Definition nonempty (s : string) : bool :=
  match s with EmptyString => false | _ => true end.

(** The loops over [enumerate(sys.argv)] and [enumerate(cmdline)]. *)
Fixpoint basedir_in_args (args : list string) : option string :=
  match args with
  | [] => None
  | arg :: rest =>
      match (if String.eqb arg "--basedir" then head rest else None) with
      | Some next => Some next
      | None =>
          if String.prefix "--basedir=" arg then Some (after_first_eq arg)
          else basedir_in_args rest
      end
  end.

Definition pid_file_of (port : Z) : string :=
  "/tmp/obico-janus-" +:+ pretty port +:+ ".pid".

Section Janus.

Variable env : Env.

Definition get_octoprint_basedir : string :=
  match basedir_in_args (sys_argv env) with
  | Some b => b
  | None =>
      let basedir := default EmptyString (os_environ env !! "OCTOPRINT_BASEDIR") in
      if nonempty basedir then basedir
      else
        match proc_cmdline env ≫= basedir_in_args with
        | Some b => b
        | None =>
            if default_path_exists env then default_path env else EmptyString
        end
  end.

(** [int(hashlib.sha256(basedir.encode()).hexdigest()[:16], 16)] *)
Definition hash_val_of (basedir : string) : option Z :=
  int_hex (String.substring 0 16 (Sha256.hexdigest (str_encode basedir))).

(** The body of [get_instance_port_offset], for a given basedir. *)
Definition instance_port_offset (basedir : string) : M Z :=
  if nonempty basedir then
    match hash_val_of basedir with
    | None => raise ValueError
    | Some hash_val =>
        let slot := hash_val mod 10 in
        let offset := slot * JANUS_PORT_GAP in
        logger DEBUG ("Instance basedir: " +:+ basedir +:+ ", slot: "
                        +:+ pretty slot +:+ ", port offset: " +:+ pretty offset) ;;;
        ret offset
    end
  else ret 0.

Definition get_instance_port_offset : M Z :=
  instance_port_offset get_octoprint_basedir.

Definition lock_errors (e : exn) : bool :=
  match e with
  | ValueError | FileNotFoundError | PermissionError => true
  | _ => false
  end.

(** One pass of the body of [for i in range(5)]: [Some port] is
    [return test_port], [None] falls through to the next [i]. *)
Definition probe_port (test_port : Z) : M (option Z) :=
  let pid_file := pid_file_of test_port in
  present <- os_path_exists pid_file ;;
  if negb present then ret (Some test_port)
  else
    try_except
      (text <- read_text pid_file ;;
       pid <- int_of (strip text) ;;
       if negb (pid_exists env pid)
       then os_remove pid_file ;;; ret (Some test_port)
       else ret None)
      lock_errors
      (fun _ =>
         try_except (os_remove pid_file) any_exception (fun _ => ret tt) ;;;
         ret (Some test_port)).

Fixpoint probe_ports (base_port : Z) (range : list Z) : M Z :=
  match range with
  | [] =>
      logger WARNING
        ("Could not find available Janus port, using " +:+ pretty base_port) ;;;
      ret base_port
  | i :: range' =>
      r <- probe_port (base_port + i * JANUS_PORT_GAP) ;;
      match r with
      | Some port => ret port
      | None => probe_ports base_port range'
      end
  end.

(** The body of [calculate_janus_ports], for a given basedir. *)
Definition ports_from (basedir : string) : M Z :=
  offset <- instance_port_offset basedir ;;
  probe_ports (JANUS_BASE_PORT + offset) (seqZ 0 5).

Definition calculate_janus_ports : M Z := ports_from get_octoprint_basedir.

(** The assignments made when the module is loaded: the pair
    ([JANUS_WS_PORT], [JANUS_ADMIN_WS_PORT]). *)
Definition load_module : M (Z * Z) :=
  ws_port <- calculate_janus_ports ;;
  let admin_ws_port := ws_port + 1 in
  logger INFO ("Janus ports for this instance: WS=" +:+ pretty ws_port
                 +:+ ", Admin=" +:+ pretty admin_ws_port
                 +:+ " (basedir: " +:+ get_octoprint_basedir +:+ ")") ;;;
  ret (ws_port, admin_ws_port).


Definition janus_pid_file_path : string := pid_file_of (JANUS_WS_PORT env).

(** ** Collaborators that live outside [janus.py] *)

(** Modelled from the spec: [wait_for_port] of [octoprint_obico/utils.py]
    is not among the sources; it blocks, bounded, until the port accepts
    connections and raises a timeout when the bound is exceeded. *)
Definition wait_for_port (host : string) (port : Z) : M unit :=
  if port_opens env host port then ret tt else raise TimeoutError.

(** Modelled from the spec: [wait_for_port_to_close] of
    [octoprint_obico/utils.py] is not among the sources; it blocks,
    bounded, until the port stops accepting connections and raises a
    timeout when the bound is exceeded. *)
Definition wait_for_port_to_close (host : string) (port : Z) : M unit :=
  if port_closes env host port then ret tt else raise TimeoutError.

(** Modelled from the spec: [plugin.send_ws_msg_to_server] is not among the
    sources; it delivers an opaque envelope to the upstream channel, or
    fails. *)
Definition send_ws_msg_to_server (data : list (string * string)) : M unit :=
  match server_send env data with
  | Some e => raise e
  | None => modify (add_upstream data)
  end.

Definition captureException (e : exn) : M unit := modify (add_sentry e).

(** [subprocess.run(['kill', arg], check=True)] *)
Definition run_kill (arg : string) : M unit :=
  modify (add_signal arg) ;;;
  if kill_returncode env arg =? 0 then ret tt else raise CalledProcessError.

(** [subprocess.Popen(cmd, env=..., stdout=PIPE, stderr=STDOUT)] *)
Definition Popen (cmd : list string) (vars : list (string * string)) : M process :=
  match popen env cmd vars with
  | inl e => raise e
  | inr p => ret p
  end.

(** Modelled from the spec: the constructor of [WebSocketClient]; it opens
    the control endpoint with a bounded connect timeout. *)
Definition WebSocketClient_new (url : string) (subprotocols : list string)
    : M WebSocketClient :=
  if ws_handshake env url then ret (mkWebSocketClient url subprotocols true [])
  else raise TimeoutError.

Definition ws_send (msg : string) (ws : WebSocketClient) : WebSocketClient :=
  mkWebSocketClient (ws_url ws) (ws_subprotocols ws) (ws_connected ws)
    (ws_sent ws ++ [msg]).

Definition ws_close (ws : WebSocketClient) : WebSocketClient :=
  mkWebSocketClient (ws_url ws) (ws_subprotocols ws) false (ws_sent ws).

Definition set_janus_ws (w : option WebSocketClient) (s : State) : State :=
  set_self (mkJanusConn (janus_server (self s)) w (shutting_down (self s))) s.

Definition set_shutting_down (b : bool) (s : State) : State :=
  set_self (mkJanusConn (janus_server (self s)) (janus_ws (self s)) b) s.

(** ** class [JanusConn] *)

Definition JanusConn_init (server : string) : JanusConn :=
  mkJanusConn server None false.

(** The [while True] loop over [janus_proc.stdout.readline()]: the stream
    yields its lines, then the empty text at end-of-stream. *)
Fixpoint read_lines (janus_proc : process) (stream : list string) : M unit :=
  let quit :=
    logger WARNING ("Janus quit with exit code "
                      +:+ pretty (proc_returncode janus_proc)) in
  match stream with
  | [] => quit
  | line :: stream' =>
      if nonempty line
      then logger DEBUG ("JANUS: " +:+ rstrip line) ;;; read_lines janus_proc stream'
      else quit
  end.

Definition janus_cmd_of (janus_bin_path : string) : string :=
  janus_bin_path +:+ " --stun-server=stun.l.google.com:19302 --configs-folder "
    +:+ RUNTIME_JANUS_ETC_DIR env.

Definition popen_env (ld_lib_path : string) : list (string * string) :=
  if nonempty ld_lib_path
  then [("LD_LIBRARY_PATH",
         ld_lib_path +:+ ":"
           +:+ default EmptyString (os_environ env !! "LD_LIBRARY_PATH"))]
  else [].

Definition show_env (vars : list (string * string)) : string :=
  match vars with
  | (k, v) :: _ => "{'" +:+ k +:+ "': '" +:+ v +:+ "'}"
  | [] => "{}"
  end.

(** The steps of [run_janus_forever] before its loop. *)
Definition spawn_janus (janus_bin_path ld_lib_path : string) : M process :=
  let janus_cmd := janus_cmd_of janus_bin_path in
  let vars := popen_env ld_lib_path in
  logger DEBUG ("Popen: " +:+ show_env vars +:+ " " +:+ janus_cmd) ;;;
  janus_proc <- Popen (String.words janus_cmd) vars ;;
  write_text janus_pid_file_path (pretty (proc_pid janus_proc)) ;;;
  ret janus_proc.

(** The thread body, run to the end of the child's output. *)
Definition run_janus_forever (janus_bin_path ld_lib_path : string) : M unit :=
  try_except
    (janus_proc <- spawn_janus janus_bin_path ld_lib_path ;;
     read_lines janus_proc (proc_stdout janus_proc))
    any_exception
    captureException.

(** The same body in two phases: up to the first [readline] (the thread's
    only suspension point), and the loop from there. *)
Definition run_janus_forever_spawn (janus_bin_path ld_lib_path : string)
    : M (option process) :=
  try_except
    (janus_proc <- spawn_janus janus_bin_path ld_lib_path ;; ret (Some janus_proc))
    any_exception
    (fun e => captureException e ;;; ret None).

Definition run_janus_forever_monitor (janus_proc : process) : M unit :=
  try_except (read_lines janus_proc (proc_stdout janus_proc))
    any_exception captureException.

(** [run_in_thread]: the thread runs up to its first suspension point;
    nothing it raises reaches the caller. *)
Definition run_in_thread {A} (body : M A) : M unit :=
  fun s => (Ok tt, snd (body s)).

Definition connected : M bool :=
  s <- get_state ;;
  ret (match janus_ws (self s) with
       | Some ws => ws_connected ws
       | None => false
       end).

Definition pass_to_janus (msg : string) : M unit :=
  c <- connected ;;
  if c then
    s <- get_state ;;
    modify (set_janus_ws (ws_send msg <$> janus_ws (self s)))
  else ret tt.

Definition wait_for_janus : M unit :=
  s <- get_state ;;
  wait_for_port (janus_server (self s)) (JANUS_WS_PORT env).

Definition process_janus_msg (raw_msg : string) : M unit :=
  try_except
    ((if Json.valid raw_msg then ret tt else raise ValueError) ;;;
     logger DEBUG "Relaying Janus msg" ;;;
     modify (add_log (LogParsed DEBUG raw_msg)) ;;;
     send_ws_msg_to_server [("janus", raw_msg)])
    any_exception
    captureException.

Definition start_janus_ws : M unit :=
  s <- get_state ;;
  ws <- WebSocketClient_new
          ("ws://" +:+ janus_server (self s) +:+ ":"
             +:+ pretty (JANUS_WS_PORT env) +:+ "/")
          ["janus-protocol"] ;;
  modify (set_janus_ws (Some ws)).

Definition kill_janus_if_running : M unit :=
  try_except
    (s <- get_state ;;
     text <- read_text janus_pid_file_path ;;
     run_kill text ;;;
     wait_for_port_to_close (janus_server (self s)) (JANUS_WS_PORT env))
    any_exception
    (fun e => logger WARNING ("Failed to shutdown Janus - " +:+ str_exn e)) ;;;
  try_except (os_remove janus_pid_file_path) any_exception (fun _ => ret tt).

Definition start (janus_bin_path ld_lib_path : string) : M unit :=
  kill_janus_if_running ;;;
  run_in_thread (run_janus_forever_spawn janus_bin_path ld_lib_path) ;;;
  wait_for_janus ;;;
  start_janus_ws.

Definition shutdown : M unit :=
  modify (set_shutting_down true) ;;;
  s <- get_state ;;
  (match janus_ws (self s) with
   | Some ws => modify (set_janus_ws (Some (ws_close ws)))
   | None => ret tt
   end) ;;;
  modify (set_janus_ws None) ;;;
  kill_janus_if_running.

End Janus.

(** ** Vocabulary of the specification, over the same state *)

(** The pid a lock file records, when it can be read and is an integer. *)
Definition lock_pid (f : lockfile) : option Z :=
  if lf_readable f then py_int (strip (lf_content f)) else None.

(** A port is held when its lock file records the pid of a live process;
    otherwise it is free (no lock file) or its lock is stale or corrupt. *)
Definition lock_holder_alive (env : Env) (s : State) (port : Z) : bool :=
  match files s !! pid_file_of port with
  | Some f =>
      match lock_pid f with
      | Some pid => pid_exists env pid
      | None => false
      end
  | None => false
  end.

(** What an attempted [os.remove] leaves behind. *)
Definition remove_if_allowed (path : string) (fs : gmap string lockfile)
    : gmap string lockfile :=
  match fs !! path with
  | Some f => if lf_removable f then delete path fs else fs
  | None => fs
  end.

(** Which step of the reclaim, if any, fails: reading the pid file,
    signalling the pid it records, waiting for the port to close. *)
Definition reclaim_failure (env : Env) (s : State) : option exn :=
  match files s !! janus_pid_file_path env with
  | None => Some FileNotFoundError
  | Some f =>
      if negb (lf_readable f) then Some PermissionError
      else if negb (kill_returncode env (lf_content f) =? 0)
           then Some CalledProcessError
      else if negb (port_closes env (janus_server (self s)) (JANUS_WS_PORT env))
           then Some TimeoutError
      else None
  end.

Definition shutdown_warning (e : exn) : log_record :=
  LogText WARNING ("Failed to shutdown Janus - " +:+ str_exn e).

(** The arguments [kill] is run with during one reclaim. *)
Definition reclaim_signals (env : Env) (s : State) : list string :=
  match files s !! janus_pid_file_path env with
  | Some f => if lf_readable f then [lf_content f] else []
  | None => []
  end.

Definition quit_warning (janus_proc : process) : log_record :=
  LogText WARNING ("Janus quit with exit code " +:+ pretty (proc_returncode janus_proc)).

Definition closed_conn (c : JanusConn) : JanusConn :=
  mkJanusConn (janus_server c) None true.

Definition janus_ws_url (env : Env) (server : string) : string :=
  "ws://" +:+ server +:+ ":" +:+ pretty (JANUS_WS_PORT env) +:+ "/".

Definition no_port_warning (base_port : Z) : log_record :=
  LogText WARNING ("Could not find available Janus port, using " +:+ pretty base_port).

(** ** Sample worlds, for running the definitions *)

Definition sample_identity : string := "/home/user/.octoprint".

(** An instance whose basedir is the default one; only pid 4242 is alive. *)
Definition sample_env : Env :=
  mkEnv ["octoprint"; "serve"] ∅ None sample_identity true
    (fun pid => pid =? 4242) (fun _ => 0) (fun _ _ => true) (fun _ _ => true)
    (fun _ _ => inr (mkProcess 5150 ["Janus started"; "Listening"] 0))
    (fun _ => true) (fun _ => None) "/tmp/.obico/janus/etc" 17850.

Definition plain_lock (text : string) : lockfile := mkLockfile text true true true.

Definition state_with (locks : list (Z * lockfile)) (conn : JanusConn) : State :=
  mkState (list_to_map (map (fun pf => (pid_file_of (fst pf), snd pf)) locks))
    [] [] [] [] conn.

Definition idle_conn : JanusConn := JanusConn_init "127.0.0.1".

(** The same instance on a machine where the gateway binary is missing and
    nothing listens on the port. *)
Definition no_binary_env : Env :=
  mkEnv ["octoprint"; "serve"] ∅ None sample_identity true
    (fun pid => pid =? 4242) (fun _ => 0) (fun _ _ => true) (fun _ _ => false)
    (fun _ _ => inl FileNotFoundError)
    (fun _ => true) (fun _ => None) "/tmp/.obico/janus/etc" 17850.

Definition open_link : WebSocketClient :=
  mkWebSocketClient "ws://127.0.0.1:17850/" ["janus-protocol"] true [].

Definition dropped_link : WebSocketClient :=
  mkWebSocketClient "ws://127.0.0.1:17850/" ["janus-protocol"] false [].

(** ** Further vocabulary *)

Fixpoint all_chars (P : ascii -> bool) (s : string) : bool :=
  match s with
  | EmptyString => true
  | String c s' => P c && all_chars P s'
  end.

Definition not_space (c : ascii) : bool := negb (is_space c).

(** An argument that names the basedir in either of the two forms. *)
Definition names_basedir (arg : string) : bool :=
  String.eqb arg "--basedir" || String.prefix "--basedir=" arg.

(** An instance started with an empty [--basedir=] while the environment
    names a basedir. *)
Definition empty_basedir_env : Env :=
  mkEnv ["octoprint"; "--basedir="] {["OCTOPRINT_BASEDIR" := "/srv/op"]} None
    sample_identity true (fun _ => false) (fun _ => 0) (fun _ _ => true)
    (fun _ _ => true) (fun _ _ => inl OSError) (fun _ => true) (fun _ => None)
    "/tmp/etc" 17730.

(** The lock file [run_janus_forever] writes for the child it spawned. *)
Definition written_lock (janus_proc : process) : lockfile :=
  mkLockfile (pretty (proc_pid janus_proc)) true true true.

(** The lock file at the instance's port, if any, can be removed. *)
Definition reclaimable (env : Env) (s : State) : Prop :=
  match files s !! janus_pid_file_path env with
  | Some f => lf_removable f = true
  | None => True
  end.

(** [Popen] yields this child for the gateway's command line. *)
Definition spawns (env : Env) (janus_bin_path ld_lib_path : string)
    (janus_proc : process) : Prop :=
  popen env (String.words (janus_cmd_of env janus_bin_path))
    (popen_env env ld_lib_path) = inr janus_proc.

(** The relay link [start_janus_ws] creates. *)
Definition janus_link (env : Env) (server : string) : WebSocketClient :=
  mkWebSocketClient (janus_ws_url env server) ["janus-protocol"] true [].

Definition popen_record (env : Env) (janus_bin_path ld_lib_path : string)
    : log_record :=
  LogText DEBUG ("Popen: " +:+ show_env (popen_env env ld_lib_path) +:+ " "
                   +:+ janus_cmd_of env janus_bin_path).



(** A caller handing messages to [pass_to_janus] one after the other. *)
Fixpoint pass_all (msgs : list string) : M unit :=
  match msgs with
  | [] => ret tt
  | msg :: msgs' => pass_to_janus msg ;;; pass_all msgs'
  end.



(** A lock file left by another user: it can be read, not written or removed. *)
Definition unwritable_lock : lockfile := mkLockfile "4242" true false false.

(** The sample instance on a machine where the gateway starts but its port
    never opens. *)
Definition slow_port_env : Env :=
  mkEnv ["octoprint"; "serve"] ∅ None sample_identity true
    (fun pid => pid =? 5150) (fun _ => 0) (fun _ _ => true) (fun _ _ => false)
    (fun _ _ => inr (mkProcess 5150 ["Janus started"] 0))
    (fun _ => true) (fun _ => None) "/tmp/.obico/janus/etc" 17850.

(** * Properties *)

Example sha256_abc :
  Sha256.hexdigest (str_encode "abc")
  = "ba7816bf8f01cfea414140de5dae2223b00361a396177a9cb410ff61f20015ad".
Proof. vm_compute. reflexivity. Qed.

Example sha256_empty :
  Sha256.hexdigest (str_encode EmptyString)
  = "e3b0c44298fc1c149afbf4c8996fb92427ae41e4649b934ca495991b7852b855".
Proof. vm_compute. reflexivity. Qed.

Example sha256_two_blocks :
  Sha256.hexdigest
    (str_encode "abcdbcdecdefdefgefghfghighijhijkijkljklmklmnlmnomnopnopq")
  = "248d6a61d20638b8e5c026930c3e6039a33ce45964ff2167f6ecedd419db06c1".
Proof. vm_compute. reflexivity. Qed.

Example json_accepts :
  forallb (fun s => Json.valid (dq s))
    ["{'janus': 'ack', 'transaction': 'x1'}"; "[1, -2.5e+3, true, null]";
     " 'a\né' "; "0"; "{}"; "[]"; "NaN"; "-Infinity"; "{'a':{'b':[{}]}}"]
  = true.
Proof. vm_compute. reflexivity. Qed.

Example json_rejects :
  existsb (fun s => Json.valid (dq s))
    [EmptyString; "{"; "janus"; "01"; "1."; "[1,]"; "{'a':1,}"; "{'a' 1}";
     "[1] 2"; "'\x'"; "{1:2}"; "tru"; "-"; "1e"; "]"; "[}"; "'a"]
  = false.
Proof. vm_compute. reflexivity. Qed.

(** ** The hash prefix and the port offset *)

Lemma hex_value_hex_digit (n : Z) :
  0 <= n < 16 -> hex_value (Sha256.hex_digit n) = Some n.
Proof.
  intros Hn.
  assert (Hcases : In n [0;1;2;3;4;5;6;7;8;9;10;11;12;13;14;15]).
  { replace n with (Z.of_nat (Z.to_nat n)) by lia.
    assert (Hlt : (Z.to_nat n < 16)%nat) by lia.
    revert Hlt. generalize (Z.to_nat n). intros k Hk.
    do 16 (destruct k as [|k]; [simpl; tauto|]). lia. }
  simpl in Hcases.
  repeat (destruct Hcases as [<-|Hcases]; [reflexivity|]).
  contradiction.
Qed.

Lemma hex_pair_value (b acc : Z) :
  0 <= b < 256 ->
  (acc * 16 + b / 16) * 16 + b mod 16 = acc * 256 + b.
Proof. intros Hb. pose proof (Z.div_mod b 16). lia. Qed.

Lemma int_hex_go_bytes (bs : list Z) (acc : Z) :
  Forall (fun b => 0 <= b < 256) bs ->
  int_hex_go acc (Sha256.hex_of_bytes bs)
  = Some (fold_left (fun a b => a * 256 + b) bs acc).
Proof.
  intros Hbs. revert acc.
  induction Hbs as [|b bs Hb _ IH]; intros acc; [reflexivity|].
  cbn [Sha256.hex_of_bytes int_hex_go fold_left].
  rewrite hex_value_hex_digit
    by (split; [apply Z.div_pos; lia | apply Z.div_lt_upper_bound; lia]).
  rewrite hex_value_hex_digit by (apply Z.mod_pos_bound; lia).
  rewrite hex_pair_value by exact Hb. apply IH.
Qed.

Lemma substring_hex_of_bytes (n : nat) (bs : list Z) :
  String.substring 0 (2 * n) (Sha256.hex_of_bytes bs)
  = Sha256.hex_of_bytes (firstn n bs).
Proof.
  revert bs. induction n as [|n IH]; intros bs.
  - destruct bs; reflexivity.
  - destruct bs as [|b bs]; [reflexivity|].
    replace (2 * S n)%nat with (S (S (2 * n))) by lia.
    cbn [Sha256.hex_of_bytes String.substring firstn].
    now rewrite IH.
Qed.

Lemma be_bytes_range (n : nat) (x : Z) :
  Forall (fun b => 0 <= b < 256) (Sha256.be_bytes n x).
Proof.
  induction n as [|n IH]; cbn [Sha256.be_bytes]; constructor; [|exact IH].
  apply Z.mod_pos_bound. lia.
Qed.

Lemma digest_range (msg : list Z) :
  Forall (fun b => 0 <= b < 256) (Sha256.digest msg).
Proof.
  unfold Sha256.digest. induction (Sha256.digest_words msg) as [|w ws IH].
  - constructor.
  - cbn [flat_map]. apply Forall_app. split; [apply be_bytes_range | exact IH].
Qed.

Lemma digest_length (msg : list Z) : length (Sha256.digest msg) = 32%nat.
Proof.
  unfold Sha256.digest, Sha256.digest_words.
  destruct (fold_left _ _ _) as [[[[[[[a b] c] d] e] f] g] h]. reflexivity.
Qed.

(** The 16 hexadecimal digits read back as the first 64 bits of the digest. *)
Lemma hash_val_of_digest (basedir : string) :
  hash_val_of basedir
  = Some (Sha256.be_value (firstn 8 (Sha256.digest (str_encode basedir)))).
Proof.
  unfold hash_val_of, Sha256.hexdigest.
  change 16%nat with (2 * 8)%nat. rewrite substring_hex_of_bytes.
  pose proof (digest_length (str_encode basedir)) as Hlen.
  pose proof (digest_range (str_encode basedir)) as Hrange.
  destruct (Sha256.digest (str_encode basedir)) as [|b0 bs]; [discriminate|].
  cbn [firstn Sha256.hex_of_bytes int_hex].
  change (String ?c1 (String ?c2 ?r)) with (Sha256.hex_of_bytes (b0 :: firstn 7 bs)).
  rewrite int_hex_go_bytes; [reflexivity|].
  change (b0 :: firstn 7 bs) with (firstn 8 (b0 :: bs)).
  apply Forall_take. exact Hrange.
Qed.

(** ** Probing one candidate port *)

Lemma set_files_same (s : State) : set_files (files s) s = s.
Proof. destruct s; reflexivity. Qed.

Ltac run_monad :=
  cbv beta iota zeta delta
    [bind ret raise try_except get_state modify logger
     os_path_exists read_text write_text os_remove int_of any_exception] in *.

Ltac steps_with H := repeat (progress (cbn; rewrite ?H)).

Lemma probe_port_live (env : Env) (s : State) (port : Z) :
  lock_holder_alive env s port = true ->
  probe_port env port s = (Ok None, s).
Proof.
  unfold lock_holder_alive, lock_pid, probe_port. run_monad.
  destruct (files s !! pid_file_of port) as [f|] eqn:Hf; [|discriminate].
  rewrite bool_decide_true by eauto. steps_with Hf.
  destruct (lf_readable f); [|discriminate].
  destruct (py_int (strip (lf_content f))) as [pid|]; [|discriminate].
  intros ->. reflexivity.
Qed.

Lemma probe_port_not_live (env : Env) (s : State) (port : Z) :
  lock_holder_alive env s port = false ->
  probe_port env port s
  = (Ok (Some port),
     set_files (remove_if_allowed (pid_file_of port) (files s)) s).
Proof.
  unfold lock_holder_alive, lock_pid, remove_if_allowed, probe_port. run_monad.
  destruct (files s !! pid_file_of port) as [f|] eqn:Hf.
  - rewrite bool_decide_true by eauto. steps_with Hf.
    destruct (lf_removable f) eqn:Hr;
      (destruct (lf_readable f); steps_with Hf;
       [destruct (py_int (strip (lf_content f))) as [pid|]; steps_with Hf;
        [intros ->|intros _] | intros _]);
      repeat (progress (cbn; rewrite ?Hf, ?Hr));
      rewrite ?set_files_same; reflexivity.
  - intros _. rewrite bool_decide_false by (intros [? ?]; discriminate).
    cbn. now rewrite set_files_same.
Qed.

(** ** The pid file path determines the port *)

Lemma string_app_length (s t : string) :
  String.length (s +:+ t) = (String.length s + String.length t)%nat.
Proof.
  induction s as [|c s IH]; [reflexivity|].
  change (S (String.length (s +:+ t)) = S (String.length s + String.length t)).
  now rewrite IH.
Qed.

Lemma string_app_inv_tail (s1 s2 t : string) :
  s1 +:+ t = s2 +:+ t -> s1 = s2.
Proof.
  revert s2. induction s1 as [|c s1 IH]; intros [|d s2] H.
  - reflexivity.
  - apply (f_equal String.length) in H.
    rewrite !string_app_length in H. cbn [String.length] in H. lia.
  - apply (f_equal String.length) in H.
    rewrite !string_app_length in H. cbn [String.length] in H. lia.
  - change (String c (s1 +:+ t) = String d (s2 +:+ t)) in H.
    injection H as -> H. f_equal. now apply IH.
Qed.

Lemma pid_file_of_inj (p q : Z) : pid_file_of p = pid_file_of q -> p = q.
Proof.
  unfold pid_file_of. intros H.
  apply (inj (String.app "/tmp/obico-janus-")) in H.
  apply string_app_inv_tail in H.
  now apply (inj pretty) in H.
Qed.

(** ** Probing the sequence of candidates *)

Lemma probe_ports_all_live (env : Env) (base : Z) (range : list Z) (s : State) :
  (forall i, In i range ->
     lock_holder_alive env s (base + i * JANUS_PORT_GAP) = true) ->
  probe_ports env base range s = (Ok base, add_log (no_port_warning base) s).
Proof.
  induction range as [|i range IH]; intros Hlive.
  - reflexivity.
  - cbn [probe_ports]. unfold bind at 1.
    rewrite probe_port_live by (apply Hlive; now left).
    apply IH. intros j Hj. apply Hlive. now right.
Qed.

Lemma probe_ports_first_free (env : Env) (base : Z) (held : list Z) (i : Z)
    (rest : list Z) (s : State) :
  (forall j, In j held ->
     lock_holder_alive env s (base + j * JANUS_PORT_GAP) = true) ->
  lock_holder_alive env s (base + i * JANUS_PORT_GAP) = false ->
  probe_ports env base (held ++ i :: rest) s
  = (Ok (base + i * JANUS_PORT_GAP),
     set_files (remove_if_allowed (pid_file_of (base + i * JANUS_PORT_GAP))
                  (files s)) s).
Proof.
  induction held as [|j held IH]; intros Hheld Hfree.
  - cbn [app probe_ports]. unfold bind at 1.
    now rewrite probe_port_not_live by exact Hfree.
  - cbn [app probe_ports]. unfold bind at 1.
    rewrite probe_port_live by (apply Hheld; now left).
    apply IH; [|exact Hfree]. intros k Hk. apply Hheld. now right.
Qed.


Lemma instance_port_offset_run (identity : string) (s : State) :
  identity <> EmptyString ->
  exists hash_val s1,
    hash_val = Sha256.be_value (firstn 8 (Sha256.digest (str_encode identity)))
    /\ instance_port_offset identity s
       = (Ok (hash_val mod 10 * JANUS_PORT_GAP), s1)
    /\ files s1 = files s /\ self s1 = self s /\ sentry s1 = sentry s.
Proof.
  intros Hne. unfold instance_port_offset.
  destruct identity as [|c identity]; [congruence|]. cbn [nonempty].
  rewrite hash_val_of_digest. run_monad.
  eexists _, _. split; [reflexivity|]. split; [reflexivity|]. now destruct s.
Qed.

Lemma instance_port_offset_returns (identity : string) (s : State) :
  exists offset s1,
    instance_port_offset identity s = (Ok offset, s1)
    /\ files s1 = files s /\ self s1 = self s /\ sentry s1 = sentry s.
Proof.
  destruct identity as [|c identity].
  - eexists _, _. split; [reflexivity|]. now destruct s.
  - destruct (instance_port_offset_run (String c identity) s)
      as (h & s1 & _ & Hrun & Hs); [discriminate|].
    eauto.
Qed.


Lemma lock_holder_alive_files (env : Env) (s s1 : State) (port : Z) :
  files s1 = files s ->
  lock_holder_alive env s1 port = lock_holder_alive env s port.
Proof. unfold lock_holder_alive. now intros ->. Qed.

(** ** Claims about the port computation *)











(** ** The reclaim step *)

Lemma add_log_fields (r : log_record) (s : State) :
  files (add_log r s) = files s /\ log (add_log r s) = log s ++ [r]
  /\ sentry (add_log r s) = sentry s /\ signals (add_log r s) = signals s
  /\ upstream (add_log r s) = upstream s /\ self (add_log r s) = self s.
Proof. now destruct s. Qed.

Lemma kill_janus_if_running_run (env : Env) (s : State) :
  exists s',
    kill_janus_if_running env s = (Ok tt, s')
    /\ log s' = log s ++ match reclaim_failure env s with
                         | Some e => [shutdown_warning e]
                         | None => []
                         end
    /\ files s' = remove_if_allowed (janus_pid_file_path env) (files s)
    /\ signals s' = signals s ++ reclaim_signals env s
    /\ sentry s' = sentry s /\ upstream s' = upstream s /\ self s' = self s.
Proof.
  unfold kill_janus_if_running, reclaim_failure, reclaim_signals,
    remove_if_allowed, run_kill, wait_for_port_to_close, shutdown_warning.
  run_monad.
  destruct (files s !! janus_pid_file_path env) as [f|] eqn:Hf; cbn.
  - destruct (lf_readable f); cbn;
      [destruct (kill_returncode env (lf_content f) =? 0); cbn;
       [destruct (port_closes env (janus_server (self s)) (JANUS_WS_PORT env));
        cbn|]|];
      rewrite Hf; destruct (lf_removable f); cbn;
      eexists; (split; [reflexivity|]);
      destruct s; cbn; rewrite ?app_nil_r; repeat split; reflexivity.
  - rewrite Hf. cbn. eexists. split; [reflexivity|].
    destruct s; cbn; rewrite ?app_nil_r; repeat split; reflexivity.
Qed.

(** C10: in every state of the file system and of the processes the reclaim
    step returns normally: a failure to read the pid file, to signal the pid
    it records or to wait for the port to close is turned into one warning
    in the log; the removal of the lock file is attempted in every case, and
    when it fails nothing is raised and nothing is logged. *)
Theorem C10_reclaim_never_raises (env : Env) (s : State) :
  exists s',
    kill_janus_if_running env s = (Ok tt, s')
    /\ log s' = log s ++ match reclaim_failure env s with
                         | Some e => [shutdown_warning e]
                         | None => []
                         end
    /\ files s' = remove_if_allowed (janus_pid_file_path env) (files s)
    /\ sentry s' = sentry s /\ self s' = self s.
Proof.
  destruct (kill_janus_if_running_run env s)
    as (s' & Hrun & Hlog & Hfiles & _ & Hsentry & _ & Hself).
  exists s'. repeat split; assumption.
Qed.

(** ** The relay link *)

(** C9: for every message, [pass_to_janus] on a link that is not connected
    (none attached, or one whose socket is down) returns at once without
    raising; nothing is sent and nothing is queued: the state is the one it
    was called in. *)
Theorem C9_send_when_disconnected (msg : string) (s : State) :
  fst (connected s) = Ok false ->
  pass_to_janus msg s = (Ok tt, s).
Proof.
  unfold pass_to_janus, connected. run_monad. cbn.
  destruct (janus_ws (self s)) as [ws|]; [|reflexivity].
  destruct (ws_connected ws); [discriminate | reflexivity].
Qed.

Lemma C9_witness :
  let s := state_with [] (mkJanusConn "127.0.0.1" (Some dropped_link) false) in
  pass_to_janus "{}" s = (Ok tt, s)
  /\ pass_to_janus "{}" (state_with [] idle_conn) = (Ok tt, state_with [] idle_conn).
Proof.
  split; apply C9_send_when_disconnected; reflexivity.
Defined.

(** A connected link does send: the hypothesis of C9 is what stops it. *)
Example pass_to_janus_connected :
  let s := state_with [] (mkJanusConn "127.0.0.1" (Some open_link) false) in
  (ws_sent <$> janus_ws (self (snd (pass_to_janus "{}" s)))) = Some ["{}"].
Proof. reflexivity. Qed.



Example relay_forwards_json :
  upstream (snd (process_janus_msg sample_env (dq "{'janus': 'ack'}")
                   (state_with [] idle_conn)))
  = [[("janus", dq "{'janus': 'ack'}")]].
Proof. vm_compute. reflexivity. Qed.

(** ** The monitoring thread *)

Lemma read_lines_run (janus_proc : process) (stream : list string) (s : State) :
  exists s',
    read_lines janus_proc stream s = (Ok tt, s')
    /\ last (log s') = Some (quit_warning janus_proc)
    /\ files s' = files s /\ sentry s' = sentry s /\ signals s' = signals s
    /\ upstream s' = upstream s /\ self s' = self s.
Proof.
  revert s. induction stream as [|line stream IH]; intros s.
  - eexists. split; [reflexivity|]. destruct s; cbn.
    rewrite last_snoc. repeat split; reflexivity.
  - cbn [read_lines]. destruct (nonempty line).
    + unfold bind at 1. unfold logger at 1. unfold modify.
      destruct (IH (add_log (LogText DEBUG ("JANUS: " +:+ rstrip line)) s))
        as (s' & -> & Hlast & Hrest).
      exists s'. split; [reflexivity|]. split; [exact Hlast|].
      destruct s; exact Hrest.
    + eexists. split; [reflexivity|]. destruct s; cbn.
      rewrite last_snoc. repeat split; reflexivity.
Qed.

(** The thread body is its two phases one after the other. *)
Lemma run_janus_forever_phases (env : Env) (janus_bin_path ld_lib_path : string)
    (s : State) :
  run_janus_forever env janus_bin_path ld_lib_path s
  = match run_janus_forever_spawn env janus_bin_path ld_lib_path s with
    | (Ok (Some janus_proc), s1) => run_janus_forever_monitor janus_proc s1
    | (_, s1) => (Ok tt, s1)
    end.
Proof.
  unfold run_janus_forever, run_janus_forever_spawn, run_janus_forever_monitor,
    captureException.
  run_monad.
  destruct (spawn_janus env janus_bin_path ld_lib_path s) as [[p|e] s1];
    [|reflexivity].
  destruct (read_lines_run p (proc_stdout p) s1) as (s' & -> & _). reflexivity.
Qed.

(** C1 as stated fails: at end-of-stream with the shutdown flag not set,
    nothing is reported to the error-reporting collaborator. *)
Lemma C1_counterexample :
  ~ (forall janus_proc s,
       shutting_down (self s) = false ->
       exists e,
         sentry (snd (run_janus_forever_monitor janus_proc s)) = sentry s ++ [e]).
Proof.
  intros H.
  destruct (H (mkProcess 5150 ["Janus started"] 1) (state_with [] idle_conn)
              eq_refl) as (e & He).
  vm_compute in He. discriminate.
Qed.

(** C1, amended: when the monitoring task observes end-of-stream on the
    gateway's output it reaps the exit code, logs it in a warning and ends.
    It does so in the same way whether or not the shutdown flag is set: the
    flag is not read, no state is recorded, and nothing is reported to the
    error-reporting collaborator. *)
Theorem C1_end_of_stream (janus_proc : process) (s : State) (flag : bool) :
  exists s',
    run_janus_forever_monitor janus_proc s = (Ok tt, s')
    /\ last (log s') = Some (quit_warning janus_proc)
    /\ sentry s' = sentry s
    /\ self s' = self s
    /\ files s' = files s
    /\ run_janus_forever_monitor janus_proc (set_shutting_down flag s)
       = (Ok tt, set_shutting_down flag s').
Proof.
  unfold run_janus_forever_monitor, try_except.
  destruct (read_lines_run janus_proc (proc_stdout janus_proc) s)
    as (s' & Hrun & Hlast & Hfiles & Hsentry & _ & _ & Hself).
  exists s'. rewrite Hrun. repeat split; try assumption.
  clear Hlast Hfiles Hsentry Hself. revert s s' Hrun.
  induction (proc_stdout janus_proc) as [|line stream IH]; intros s s' Hrun.
  - cbn in Hrun |- *. injection Hrun as <-. reflexivity.
  - cbn [read_lines] in Hrun |- *. destruct (nonempty line).
    + unfold bind at 1 in Hrun. unfold bind at 1.
      unfold logger at 1 in Hrun. unfold logger at 1. unfold modify in *.
      apply (IH _ _ Hrun).
    + cbn in Hrun |- *. injection Hrun as <-. reflexivity.
Qed.

(** ** Start and shutdown *)

Lemma shutdown_run (env : Env) (s : State) :
  exists s',
    shutdown env s = (Ok tt, s')
    /\ self s' = closed_conn (self s)
    /\ files s' = remove_if_allowed (janus_pid_file_path env) (files s)
    /\ signals s' = signals s ++ reclaim_signals env s
    /\ sentry s' = sentry s /\ upstream s' = upstream s.
Proof.
  unfold shutdown. run_monad. cbn.
  destruct (janus_ws (self s)) as [ws|]; cbn;
    match goal with
    | |- context [kill_janus_if_running env ?x] =>
        destruct (kill_janus_if_running_run env x)
          as (s' & -> & _ & Hf & Hsig & Hsen & Hup & Hself)
    end;
    exists s'; (split; [reflexivity|]);
    unfold reclaim_signals in *; destruct s as [? ? ? ? ? [? ? ?]];
    cbn in *; repeat split; assumption.
Qed.




(** A lock file that cannot be removed is signalled again by a second call. *)
Example shutdown_twice_unremovable :
  let s := state_with [(17850, mkLockfile "4242" true false false)] idle_conn in
  signals (snd (shutdown sample_env (snd (shutdown sample_env s))))
  = ["4242"; "4242"].
Proof. vm_compute. reflexivity. Qed.

(** C6 as stated fails: with the gateway binary missing, what [start] raises
    is the timeout of the wait for the port, not the spawn error, which is
    reported from the thread instead. *)
Lemma C6_counterexample :
  let s := state_with [] idle_conn in
  let cmd := String.words (janus_cmd_of no_binary_env "/usr/bin/janus") in
  popen no_binary_env cmd (popen_env no_binary_env "/usr/lib/janus")
  = inl FileNotFoundError
  /\ fst (start no_binary_env "/usr/bin/janus" "/usr/lib/janus" s)
     = Raise TimeoutError
  /\ fst (start no_binary_env "/usr/bin/janus" "/usr/lib/janus" s)
     <> Raise FileNotFoundError
  /\ sentry (snd (start no_binary_env "/usr/bin/janus" "/usr/lib/janus" s))
     = [FileNotFoundError].
Proof.
  cbv zeta. split; [reflexivity|].
  split; [vm_compute; reflexivity|].
  split; [vm_compute; discriminate|].
  vm_compute. reflexivity.
Qed.

(** C6, amended: when the gateway executable cannot be spawned, the spawn
    error is raised inside the thread, caught there and reported to the
    error-reporting collaborator; it does not reach the caller of [start].
    No lock file is written: the files are those left by the reclaim step.
    [start] then goes on to wait for the port: it raises the timeout of that
    wait, or of the connection of the relay link, and returns normally if
    some process does listen on the port. *)
Theorem C6_spawn_failure (env : Env) (janus_bin_path ld_lib_path : string)
    (s : State) (e : exn) :
  popen env (String.words (janus_cmd_of env janus_bin_path))
    (popen_env env ld_lib_path) = inl e ->
  exists s',
    start env janus_bin_path ld_lib_path s
    = (if port_opens env (janus_server (self s)) (JANUS_WS_PORT env)
          && ws_handshake env (janus_ws_url env (janus_server (self s)))
       then Ok tt else Raise TimeoutError, s')
    /\ sentry s' = sentry s ++ [e]
    /\ files s' = remove_if_allowed (janus_pid_file_path env) (files s)
    /\ (forall path, files s !! path = None -> files s' !! path = None).
Proof.
  intros Hpopen. unfold start.
  unfold bind at 1.
  destruct (kill_janus_if_running_run env s)
    as (s1 & -> & _ & Hf1 & _ & Hsen1 & _ & Hself1).
  unfold bind at 1, run_in_thread at 1.
  unfold run_janus_forever_spawn, spawn_janus, Popen, captureException.
  rewrite Hpopen. run_monad. cbn.
  unfold wait_for_janus, wait_for_port, start_janus_ws, WebSocketClient_new.
  run_monad. cbn. rewrite Hself1. fold (janus_ws_url env (janus_server (self s))).
  assert (Hcreated : forall path, files s !! path = None ->
            remove_if_allowed (janus_pid_file_path env) (files s) !! path = None).
  { intros path Hnone. unfold remove_if_allowed.
    destruct (files s !! janus_pid_file_path env) as [f|]; [|exact Hnone].
    destruct (lf_removable f); [|exact Hnone].
    rewrite lookup_delete. case_decide; [reflexivity | exact Hnone]. }
  destruct (port_opens env (janus_server (self s)) (JANUS_WS_PORT env));
    repeat (progress (cbn; rewrite ?Hself1));
    fold (janus_ws_url env (janus_server (self s)));
    [destruct (ws_handshake env (janus_ws_url env (janus_server (self s)))); cbn|];
    eexists; (split; [reflexivity|]); cbn; rewrite Hsen1, Hf1;
    repeat split; auto.
Qed.

Lemma C6_witness :
  exists s',
    start no_binary_env "/usr/bin/janus" "/usr/lib/janus" (state_with [] idle_conn)
    = (Raise TimeoutError, s')
    /\ sentry s' = [FileNotFoundError].
Proof.
  destruct (C6_spawn_failure no_binary_env "/usr/bin/janus" "/usr/lib/janus"
              (state_with [] idle_conn) FileNotFoundError eq_refl)
    as (s' & Hrun & Hsentry & _).
  exists s'. split; [exact Hrun | exact Hsentry].
Defined.

(** ** The definitions at work on the sample worlds *)

Example basedir_from_argv :
  basedir_in_args ["octoprint"; "serve"; "--basedir"; "/srv/op2"] = Some "/srv/op2"
  /\ basedir_in_args ["octoprint"; "--basedir=/srv/op3"; "serve"] = Some "/srv/op3"
  /\ basedir_in_args ["octoprint"; "--basedir"] = None
  /\ get_octoprint_basedir sample_env = sample_identity.
Proof. repeat split. Qed.

Example load_module_on_a_clean_machine :
  fst (load_module sample_env (state_with [] idle_conn)) = Ok (17850, 17851).
Proof. vm_compute. reflexivity. Qed.

Example allocation_all_five_held :
  let s := state_with
             [(17850, plain_lock "4242"); (17870, plain_lock "4242");
              (17890, plain_lock " 4242 "); (17910, plain_lock "+4242");
              (17930, plain_lock "4_242")] idle_conn in
  fst (ports_from sample_env sample_identity s) = Ok 17850
  /\ last (log (snd (ports_from sample_env sample_identity s)))
     = Some (no_port_warning 17850)
  /\ files (snd (ports_from sample_env sample_identity s)) = files s.
Proof. vm_compute. repeat split. Qed.

Example start_on_a_clean_machine :
  let s' := snd (start sample_env "/usr/bin/janus" "/usr/lib/janus"
                   (state_with [] idle_conn)) in
  fst (start sample_env "/usr/bin/janus" "/usr/lib/janus" (state_with [] idle_conn))
  = Ok tt
  /\ lf_content <$> (files s' !! pid_file_of 17850) = Some "5150"
  /\ janus_ws (self s') = Some open_link
  /\ sentry s' = [].
Proof. vm_compute. repeat split. Qed.

Example thread_runs_to_the_end_of_output :
  log (snd (run_janus_forever sample_env "/usr/bin/janus" EmptyString
              (state_with [] idle_conn)))
  = [LogText DEBUG
       "Popen: {} /usr/bin/janus --stun-server=stun.l.google.com:19302 --configs-folder /tmp/.obico/janus/etc";
     LogText DEBUG "JANUS: Janus started";
     LogText DEBUG "JANUS: Listening";
     LogText WARNING "Janus quit with exit code 0"].
Proof. vm_compute. reflexivity. Qed.


(** * Further properties of the code *)

(** ** What [start] writes, [calculate_janus_ports] reads back *)

Lemma string_app_nil_r (s : string) : s +:+ EmptyString = s.
Proof.
  induction s as [|c s IH]; [reflexivity|].
  change (String c (s +:+ EmptyString) = String c s). now rewrite IH.
Qed.

Lemma rev_app_rev_app (s t u : string) :
  String.rev_app (String.rev_app s t) u = String.rev_app t (s +:+ u).
Proof.
  revert t u. induction s as [|c s IH]; intros t u; [reflexivity|].
  cbn [String.rev_app]. rewrite IH. reflexivity.
Qed.

Lemma string_rev_involutive (s : string) : String.rev (String.rev s) = s.
Proof.
  unfold String.rev. rewrite rev_app_rev_app. cbn [String.rev_app].
  apply string_app_nil_r.
Qed.

Lemma all_chars_rev_app (P : ascii -> bool) (s t : string) :
  all_chars P s = true -> all_chars P t = true ->
  all_chars P (String.rev_app s t) = true.
Proof.
  revert t. induction s as [|c s IH]; intros t Hs Ht; [exact Ht|].
  cbn [all_chars] in Hs. apply andb_prop in Hs as [Hc Hs].
  cbn [String.rev_app]. apply IH; [exact Hs|]. cbn [all_chars].
  now rewrite Hc, Ht.
Qed.

Lemma lstrip_not_space (s : string) :
  all_chars not_space s = true -> lstrip s = s.
Proof.
  destruct s as [|c s]; [reflexivity|]. cbn [all_chars lstrip].
  unfold not_space at 1. intros H. apply andb_prop in H as [Hc _].
  now destruct (is_space c).
Qed.

Lemma strip_not_space (s : string) :
  all_chars not_space s = true -> strip s = s.
Proof.
  intros H. unfold strip, rstrip. rewrite (lstrip_not_space s H).
  rewrite lstrip_not_space; [apply string_rev_involutive|].
  unfold String.rev. now apply all_chars_rev_app.
Qed.

Lemma is_digit_not_space (c : ascii) : is_digit c = true -> not_space c = true.
Proof.
  unfold is_digit, not_space, is_space. cbv zeta.
  generalize (N_of_ascii c). intros n H.
  apply andb_prop in H as [H1 H2].
  apply N.leb_le in H1. apply N.leb_le in H2.
  apply negb_true_iff, orb_false_iff. split; apply andb_false_iff.
  - right. apply N.leb_gt. lia.
  - right. apply N.leb_gt. lia.
Qed.

Lemma all_digits_not_space (s : string) :
  all_chars is_digit s = true -> all_chars not_space s = true.
Proof.
  induction s as [|c s IH]; [reflexivity|]. cbn [all_chars].
  intros H. apply andb_prop in H as [Hc Hs].
  now rewrite (is_digit_not_space c Hc), IH.
Qed.

Lemma pretty_N_char_digit (n : N) :
  (n < 10)%N ->
  is_digit (pretty_N_char n) = true /\ digit_value (pretty_N_char n) = Z.of_N n.
Proof.
  intros Hn.
  assert (Hc : In n [0; 1; 2; 3; 4; 5; 6; 7; 8; 9]%N) by (cbn; lia).
  cbn in Hc. repeat (destruct Hc as [<-|Hc]; [split; reflexivity|]).
  contradiction.
Qed.

Lemma pretty_N_go_all_digits (x : N) (s : string) :
  all_chars is_digit s = true -> all_chars is_digit (pretty_N_go x s) = true.
Proof.
  revert s. induction (N.lt_wf_0 x) as [x _ IH]; intros s Hs.
  destruct (decide (x = 0)%N) as [->|Hx]; [now rewrite pretty_N_go_0|].
  rewrite pretty_N_go_step by lia. apply IH.
  - apply N.div_lt; lia.
  - cbn [all_chars]. rewrite Hs.
    now rewrite (proj1 (pretty_N_char_digit (x mod 10)
                          (N.mod_lt x 10 ltac:(lia)))).
Qed.

Lemma pretty_N_go_value (x : N) :
  (0 < x)%N ->
  forall (s : string) (acc : Z) (b : bool),
  exists m, int_digits acc b (pretty_N_go x s)
            = int_digits (acc * m + Z.of_N x) true s.
Proof.
  induction (N.lt_wf_0 x) as [x _ IH]; intros Hx s acc b.
  rewrite pretty_N_go_step by exact Hx.
  destruct (pretty_N_char_digit (x mod 10) (N.mod_lt x 10 ltac:(lia)))
    as [Hd Hv].
  pose proof (N.div_mod x 10 ltac:(lia)) as Hdm.
  destruct (decide (x / 10 = 0)%N) as [H0|H0].
  - rewrite H0, pretty_N_go_0. cbn [int_digits]. rewrite Hd, Hv.
    exists 10. f_equal. lia.
  - assert (Hlt : (x / 10 < x)%N) by (apply N.div_lt; lia).
    assert (Hpos : (0 < x / 10)%N) by (apply N.neq_0_lt_0; exact H0).
    destruct (IH (x / 10)%N Hlt Hpos
                (String (pretty_N_char (x mod 10)) s) acc b) as (m & ->).
    cbn [int_digits]. rewrite Hd, Hv. exists (m * 10). f_equal. lia.
Qed.

Lemma py_int_digits_only (s : string) :
  all_chars is_digit s = true -> py_int s = int_digits 0 false s.
Proof.
  intros H. unfold py_int. rewrite strip_not_space by now apply all_digits_not_space.
  destruct s as [|c s]; [reflexivity|].
  cbn [all_chars] in H. apply andb_prop in H as [Hc _].
  destruct c as [[] [] [] [] [] [] [] []]; try discriminate Hc; reflexivity.
Qed.

Lemma py_int_pretty_pos (p : positive) :
  all_chars is_digit (pretty (N.pos p)) = true
  /\ int_digits 0 false (pretty (N.pos p)) = Some (Z.pos p).
Proof.
  unfold pretty, pretty_N. rewrite decide_False by discriminate. split.
  - now apply pretty_N_go_all_digits.
  - destruct (pretty_N_go_value (N.pos p) ltac:(lia) EmptyString 0 false)
      as (m & ->).
    cbn [int_digits]. f_equal.
Qed.

Lemma py_int_strip_pretty (pid : Z) : py_int (strip (pretty pid)) = Some pid.
Proof.
  destruct pid as [|p|p].
  - reflexivity.
  - change (pretty (Z.pos p)) with (pretty (N.pos p)).
    destruct (py_int_pretty_pos p) as [Hd Hv].
    rewrite strip_not_space by now apply all_digits_not_space.
    now rewrite py_int_digits_only.
  - change (pretty (Z.neg p)) with ("-" +:+ pretty (N.pos p)).
    destruct (py_int_pretty_pos p) as [Hd Hv].
    assert (Hns : all_chars not_space ("-" +:+ pretty (N.pos p)) = true).
    { change ("-" +:+ pretty (N.pos p)) with (String "-" (pretty (N.pos p))).
      cbn [all_chars]. now rewrite all_digits_not_space. }
    rewrite !strip_not_space by exact Hns.
    unfold py_int. rewrite strip_not_space by exact Hns.
    change ("-" +:+ pretty (N.pos p)) with (String "-" (pretty (N.pos p))).
    cbv iota. now rewrite Hv.
Qed.

(** X1: the text written into the pid file, [str(pid)], is read back by
    [int(text.strip())] as the same integer, for every integer. *)
Theorem X1_pid_text_round_trip (pid : Z) : py_int (strip (pretty pid)) = Some pid.
Proof. apply py_int_strip_pretty. Qed.

(** ** The basedir on a command line *)

Lemma basedir_in_args_skip (pre rest : list string) :
  Forall (fun a => names_basedir a = false) pre ->
  basedir_in_args (pre ++ rest) = basedir_in_args rest.
Proof.
  induction 1 as [|a pre Ha _ IH]; [reflexivity|].
  unfold names_basedir in Ha. apply orb_false_iff in Ha as [Heq Hpre].
  cbn [app basedir_in_args]. now rewrite Heq, Hpre.
Qed.

(** X2: on a command line whose first argument naming the basedir is
    [--basedir] followed by a value, that value is the basedir; when it is
    of the form [--basedir=value], the basedir is everything after the first
    equals sign, further equals signs included. Later arguments are not
    looked at. *)
Theorem X2_first_basedir_argument (pre rest : list string) (value : string) :
  Forall (fun a => names_basedir a = false) pre ->
  basedir_in_args (pre ++ "--basedir" :: value :: rest) = Some value
  /\ basedir_in_args (pre ++ ("--basedir=" +:+ value) :: rest) = Some value.
Proof.
  intros Hpre. rewrite !basedir_in_args_skip by exact Hpre.
  split; [reflexivity|]. cbn [basedir_in_args].
  change ("--basedir=" +:+ value)
    with (String "-" (String "-" (String "b" (String "a" (String "s"
           (String "e" (String "d" (String "i" (String "r"
             (String "=" value)))))))))).
  destruct value; reflexivity.
Qed.

Lemma X2_witness :
  basedir_in_args ["octoprint"; "serve"; "--basedir"; "/srv/a"; "--basedir=/srv/b"]
  = Some "/srv/a"
  /\ basedir_in_args ["octoprint"; "--basedir=/srv/x=y"; "--basedir"; "/srv/a"]
     = Some "/srv/x=y".
Proof.
  split.
  - refine (proj1 (X2_first_basedir_argument ["octoprint"; "serve"]
                     ["--basedir=/srv/b"] "/srv/a" _)).
    repeat constructor.
  - refine (proj2 (X2_first_basedir_argument ["octoprint"]
                     ["--basedir"; "/srv/a"] "/srv/x=y" _)).
    repeat constructor.
Defined.

(** X3: no basedir is found on a command line exactly when no argument
    starts with [--basedir=] and [--basedir] occurs at most as the last
    argument, where it has no value to give. *)
Theorem X3_no_basedir_argument (args : list string) :
  basedir_in_args args = None
  <-> forall (i : nat) (arg : string),
        args !! i = Some arg ->
        String.prefix "--basedir=" arg = false
        /\ (arg = "--basedir" -> args !! S i = None).
Proof.
  induction args as [|a args IH].
  - split; [intros _ i arg Hi; discriminate | reflexivity].
  - cbn [basedir_in_args]. split.
    + intros Hnone.
      assert (Hhead : (if String.eqb a "--basedir" then head args else None) = None)
        by (destruct (if String.eqb a "--basedir" then head args else None);
            [discriminate | reflexivity]).
      rewrite Hhead in Hnone.
      destruct (String.prefix "--basedir=" a) eqn:Hp; [discriminate|].
      intros [|i] arg Hi; cbn in Hi.
      * injection Hi as <-. split; [exact Hp|].
        intros ->. cbn in Hhead. now destruct args.
      * now apply (proj1 IH Hnone i arg).
    + intros Hall.
      destruct (Hall 0%nat a eq_refl) as [Hp Hlast].
      assert (Htail : basedir_in_args args = None).
      { apply IH. intros i arg Hi. exact (Hall (S i) arg Hi). }
      destruct (String.eqb a "--basedir") eqn:Heq.
      * apply String.eqb_eq in Heq. specialize (Hlast Heq). cbn in Hlast.
        destruct args; [|discriminate]. cbn. now rewrite Hp.
      * now rewrite Hp.
Qed.

(** X4: an empty value given as [--basedir=] is taken as it is: the
    environment variable, the process command line and the default path are
    not consulted, the identity is empty and the port offset is 0, with
    nothing logged. *)
Theorem X4_empty_basedir_value (env : Env) (pre rest : list string) (s : State) :
  sys_argv env = pre ++ "--basedir=" :: rest ->
  Forall (fun a => names_basedir a = false) pre ->
  get_octoprint_basedir env = EmptyString
  /\ get_instance_port_offset env s = (Ok 0, s).
Proof.
  intros Hargv Hpre.
  assert (Hb : get_octoprint_basedir env = EmptyString).
  { unfold get_octoprint_basedir. rewrite Hargv.
    rewrite basedir_in_args_skip by exact Hpre. reflexivity. }
  split; [exact Hb|]. unfold get_instance_port_offset. now rewrite Hb.
Qed.

Lemma X4_witness :
  get_instance_port_offset empty_basedir_env (state_with [] idle_conn)
  = (Ok 0, state_with [] idle_conn).
Proof.
  refine (proj2 (X4_empty_basedir_value empty_basedir_env ["octoprint"] []
                   (state_with [] idle_conn) eq_refl _)).
  repeat constructor.
Defined.


(** ** The allocation as a whole *)

Lemma instance_port_offset_cases (identity : string) (s : State) :
  exists slot s1,
    0 <= slot < 10
    /\ instance_port_offset identity s = (Ok (slot * JANUS_PORT_GAP), s1)
    /\ files s1 = files s /\ self s1 = self s /\ sentry s1 = sentry s
    /\ signals s1 = signals s /\ upstream s1 = upstream s.
Proof.
  destruct identity as [|c identity].
  - exists 0, s. cbn. repeat split; lia.
  - unfold instance_port_offset. cbn [nonempty]. rewrite hash_val_of_digest.
    run_monad. eexists _, _. split; [apply Z.mod_pos_bound; lia|].
    split; [reflexivity|]. now destruct s.
Qed.

Lemma instance_port_offset_same (identity : string) (s s' : State) :
  fst (instance_port_offset identity s) = fst (instance_port_offset identity s').
Proof.
  destruct identity as [|c identity]; [reflexivity|].
  unfold instance_port_offset. cbn [nonempty]. rewrite hash_val_of_digest.
  reflexivity.
Qed.

Lemma probe_ports_five (env : Env) (base : Z) (s : State) :
  let held k := lock_holder_alive env s (base + k * JANUS_PORT_GAP) in
  ((forall k, 0 <= k <= 4 -> held k = true)
   /\ probe_ports env base (seqZ 0 5) s
      = (Ok base, add_log (no_port_warning base) s))
  \/ exists k,
       0 <= k <= 4
       /\ (forall j, 0 <= j < k -> held j = true)
       /\ held k = false
       /\ probe_ports env base (seqZ 0 5) s
          = (Ok (base + k * JANUS_PORT_GAP),
             set_files (remove_if_allowed
                          (pid_file_of (base + k * JANUS_PORT_GAP)) (files s)) s).
Proof.
  intros held.
  assert (Hfree : forall k, 0 <= k <= 4 ->
            (forall j, 0 <= j < k -> held j = true) -> held k = false ->
            probe_ports env base (seqZ 0 5) s
            = (Ok (base + k * JANUS_PORT_GAP),
               set_files (remove_if_allowed
                            (pid_file_of (base + k * JANUS_PORT_GAP)) (files s)) s)).
  { intros k Hk Hbefore Hk0.
    replace (seqZ 0 5) with (seqZ 0 k ++ k :: seqZ (k + 1) (4 - k)).
    - apply probe_ports_first_free; [|exact Hk0].
      intros j Hj. apply Hbefore.
      apply list_elem_of_In, elem_of_seqZ in Hj. lia.
    - assert (Hc : In k [0;1;2;3;4]) by (cbn; lia).
      cbn in Hc. repeat (destruct Hc as [<-|Hc]; [reflexivity|]).
      contradiction. }
  destruct (held 0) eqn:H0;
    [|right; exists 0; repeat split; [lia..| |exact H0|apply Hfree; [lia| |exact H0]];
      intros j Hj; lia].
  destruct (held 1) eqn:H1;
    [|right; exists 1; repeat split; [lia..| |exact H1|apply Hfree; [lia| |exact H1]];
      intros j Hj; now replace j with 0 by lia].
  destruct (held 2) eqn:H2;
    [|right; exists 2; repeat split; [lia..| |exact H2|apply Hfree; [lia| |exact H2]];
      intros j Hj; assert (Hc : j = 0 \/ j = 1) by lia;
      now destruct Hc as [-> | ->]].
  destruct (held 3) eqn:H3;
    [|right; exists 3; repeat split; [lia..| |exact H3|apply Hfree; [lia| |exact H3]];
      intros j Hj; assert (Hc : j = 0 \/ j = 1 \/ j = 2) by lia;
      now destruct Hc as [-> | [-> | ->]]].
  destruct (held 4) eqn:H4;
    [|right; exists 4; repeat split; [lia..| |exact H4|apply Hfree; [lia| |exact H4]];
      intros j Hj; assert (Hc : j = 0 \/ j = 1 \/ j = 2 \/ j = 3) by lia;
      now destruct Hc as [-> | [-> | [-> | ->]]]].
  left.
  assert (Hall : forall k, 0 <= k <= 4 -> held k = true).
  { intros k Hk. assert (Hc : k = 0 \/ k = 1 \/ k = 2 \/ k = 3 \/ k = 4) by lia.
    now destruct Hc as [-> | [-> | [-> | [-> | ->]]]]. }
  split; [exact Hall|]. apply probe_ports_all_live.
  intros i Hi. apply Hall. apply list_elem_of_In, elem_of_seqZ in Hi. lia.
Qed.

(** What one allocation does, in full. *)
Lemma ports_from_cases (env : Env) (identity : string) (s : State) :
  exists slot s1,
    0 <= slot < 10
    /\ instance_port_offset identity s = (Ok (slot * JANUS_PORT_GAP), s1)
    /\ files s1 = files s /\ self s1 = self s /\ sentry s1 = sentry s
    /\ signals s1 = signals s /\ upstream s1 = upstream s
    /\ let base := JANUS_BASE_PORT + slot * JANUS_PORT_GAP in
       let held k := lock_holder_alive env s (base + k * JANUS_PORT_GAP) in
       ((forall k, 0 <= k <= 4 -> held k = true)
        /\ ports_from env identity s
           = (Ok base, add_log (no_port_warning base) s1))
       \/ exists k,
            0 <= k <= 4
            /\ (forall j, 0 <= j < k -> held j = true)
            /\ held k = false
            /\ ports_from env identity s
               = (Ok (base + k * JANUS_PORT_GAP),
                  set_files (remove_if_allowed
                               (pid_file_of (base + k * JANUS_PORT_GAP))
                               (files s)) s1).
Proof.
  destruct (instance_port_offset_cases identity s)
    as (slot & s1 & Hslot & Hrun & Hf & Hrest).
  exists slot, s1. split; [exact Hslot|]. split; [exact Hrun|].
  split; [exact Hf|].
  destruct Hrest as (Hself & Hsen & Hsig & Hup).
  repeat (split; [assumption|]).
  intros base held. unfold ports_from, bind. rewrite Hrun. fold base.
  assert (Hheld : forall k,
            lock_holder_alive env s1 (base + k * JANUS_PORT_GAP) = held k)
    by (intros k; now apply lock_holder_alive_files).
  destruct (probe_ports_five env base s1) as [[Hall ->] | (k & Hk & Hb & Hk0 & ->)].
  - left. split; [|reflexivity]. intros k Hk. rewrite <- Hheld. now apply Hall.
  - right. exists k. rewrite Hf. repeat split; try assumption; try lia.
    + intros j Hj. rewrite <- Hheld. now apply Hb.
    + now rewrite <- Hheld.
Qed.


(** X7: allocation removes at most one lock file, the one of the port it
    returns; it creates none and alters none. Every other path is as before,
    and the returned port's lock file is either gone or as before. *)
Theorem X7_allocation_frame (env : Env) (identity : string) (s s' : State)
    (port : Z) :
  ports_from env identity s = (Ok port, s') ->
  (forall path, path <> pid_file_of port -> files s' !! path = files s !! path)
  /\ (files s' !! pid_file_of port = None
      \/ files s' !! pid_file_of port = files s !! pid_file_of port).
Proof.
  intros Hrun.
  destruct (ports_from_cases env identity s)
    as (slot & s1 & _ & _ & Hf & _ & _ & _ & _ & Hcases).
  cbv zeta in Hcases.
  destruct Hcases as [[_ Hrun'] | (k & _ & _ & _ & Hrun')];
    rewrite Hrun in Hrun'; injection Hrun' as -> ->.
  - destruct s1; cbn in *. subst. split; [reflexivity | now right].
  - cbn [files set_files]. unfold remove_if_allowed.
    destruct (files s !! pid_file_of _) as [f|] eqn:Hlk;
      [destruct (lf_removable f)|].
    + split; [intros path Hne; now apply lookup_delete_ne|].
      left. apply lookup_delete_eq.
    + split; [reflexivity | now right].
    + split; [reflexivity | now right].
Qed.

Lemma X7_witness :
  files (snd (ports_from sample_env sample_identity
                (state_with [(17850, plain_lock "111"); (17870, plain_lock "222")]
                   idle_conn))) !! pid_file_of 17870
  = files (state_with [(17850, plain_lock "111"); (17870, plain_lock "222")]
             idle_conn) !! pid_file_of 17870.
Proof.
  refine (proj1 (X7_allocation_frame sample_env sample_identity
                   (state_with [(17850, plain_lock "111"); (17870, plain_lock "222")]
                      idle_conn)
                   (snd (ports_from sample_env sample_identity
                           (state_with [(17850, plain_lock "111");
                                        (17870, plain_lock "222")] idle_conn)))
                   17850 _) (pid_file_of 17870) _).
  - vm_compute. reflexivity.
  - vm_compute. discriminate.
Defined.

Lemma remove_if_allowed_lookup (path : string) (fs : gmap string lockfile)
    (other : string) :
  other <> path -> remove_if_allowed path fs !! other = fs !! other.
Proof.
  intros Hne. unfold remove_if_allowed.
  destruct (fs !! path) as [f|]; [|reflexivity].
  destruct (lf_removable f); [|reflexivity].
  now apply lookup_delete_ne.
Qed.

Lemma remove_if_allowed_twice (path : string) (fs : gmap string lockfile) :
  remove_if_allowed path (remove_if_allowed path fs) = remove_if_allowed path fs.
Proof.
  destruct (fs !! path) as [f|] eqn:Hf; [destruct (lf_removable f) eqn:Hr|].
  - assert (Hdel : remove_if_allowed path fs = delete path fs)
      by (unfold remove_if_allowed; now rewrite Hf, Hr).
    rewrite Hdel. unfold remove_if_allowed. now rewrite lookup_delete_eq.
  - assert (Hsame : remove_if_allowed path fs = fs)
      by (unfold remove_if_allowed; now rewrite Hf, Hr).
    now rewrite !Hsame.
  - assert (Hsame : remove_if_allowed path fs = fs)
      by (unfold remove_if_allowed; now rewrite Hf).
    now rewrite !Hsame.
Qed.

Lemma lock_holder_alive_after_removal (env : Env) (s s' : State) (path : string)
    (port : Z) :
  files s' = remove_if_allowed path (files s) ->
  lock_holder_alive env s port = false \/ pid_file_of port <> path ->
  lock_holder_alive env s' port = lock_holder_alive env s port.
Proof.
  intros Hf Hcase. unfold lock_holder_alive in *. rewrite Hf.
  destruct (decide (pid_file_of port = path)) as [<-|Hne].
  - destruct Hcase as [Hfree|Hne]; [|congruence].
    unfold remove_if_allowed.
    destruct (files s !! pid_file_of port) as [f|] eqn:Hlk; [|now rewrite Hlk].
    destruct (lf_removable f).
    + rewrite lookup_delete_eq. now rewrite Hfree.
    + now rewrite Hlk.
  - now rewrite remove_if_allowed_lookup.
Qed.

(** X8: allocation is stable under repetition: a second allocation for the
    same identity, run in the state the first one left, returns the same
    port and changes no file. *)
Theorem X8_allocation_repeatable (env : Env) (identity : string) (s s1 : State)
    (port : Z) :
  ports_from env identity s = (Ok port, s1) ->
  exists s2, ports_from env identity s1 = (Ok port, s2) /\ files s2 = files s1.
Proof.
  intros Hrun.
  destruct (ports_from_cases env identity s)
    as (slot & t & _ & Hoff & Hft & _ & _ & _ & _ & Hcases).
  destruct (ports_from_cases env identity s1)
    as (slot' & t' & _ & Hoff' & Hft' & _ & _ & _ & _ & Hcases').
  assert (slot' = slot) as ->.
  { pose proof (instance_port_offset_same identity s s1) as Hsame.
    rewrite Hoff, Hoff' in Hsame. cbn in Hsame. injection Hsame as Hsame.
    unfold JANUS_PORT_GAP in Hsame. lia. }
  cbv zeta in Hcases, Hcases'.
  set (base := JANUS_BASE_PORT + slot * JANUS_PORT_GAP) in *.
  destruct Hcases as [[Hall Hrun1] | (k & Hk & Hbefore & Hfree & Hrun1)];
    rewrite Hrun in Hrun1; injection Hrun1 as -> ->.
  - (* all five held: nothing changed, so all five are held again *)
    assert (Hfs : files (add_log (no_port_warning base) t) = files s)
      by (destruct t; exact Hft).
    destruct Hcases' as [[_ ->] | (k & Hk & _ & Hfree' & _)].
    + eexists. split; [reflexivity|]. destruct t'; cbn in *. congruence.
    + rewrite (lock_holder_alive_files env s _ _ Hfs) in Hfree'.
      rewrite Hall in Hfree' by exact Hk. discriminate.
  - set (path := pid_file_of (base + k * JANUS_PORT_GAP)) in *.
    set (s1 := set_files (remove_if_allowed path (files s)) t) in *.
    assert (Hfs : files s1 = remove_if_allowed path (files s)) by reflexivity.
    assert (Hlive : forall j, 0 <= j < k ->
              lock_holder_alive env s1 (base + j * JANUS_PORT_GAP) = true).
    { intros j Hj.
      rewrite (lock_holder_alive_after_removal env s s1 path) by
        (try exact Hfs; right; unfold path; intros Heq;
         apply pid_file_of_inj in Heq; unfold JANUS_PORT_GAP in Heq; lia).
      now apply Hbefore. }
    assert (Hstill : lock_holder_alive env s1 (base + k * JANUS_PORT_GAP) = false).
    { rewrite (lock_holder_alive_after_removal env s s1 path) by
        (try exact Hfs; now left).
      exact Hfree. }
    destruct Hcases' as [[Hall' _] | (k' & Hk' & Hbefore' & Hfree' & ->)].
    + rewrite Hall' in Hstill by exact Hk. discriminate.
    + assert (k' = k) as ->.
      { destruct (Z.lt_trichotomy k' k) as [Hlt | [Heq | Hgt]]; [|exact Heq|].
        - rewrite Hlive in Hfree' by lia. discriminate.
        - rewrite Hbefore' in Hstill by lia. discriminate. }
      eexists. split; [reflexivity|]. cbn [files set_files]. fold path.
      rewrite Hfs. apply remove_if_allowed_twice.
Qed.

Lemma X8_witness :
  exists s2,
    ports_from sample_env sample_identity
      (snd (ports_from sample_env sample_identity
              (state_with [(17850, plain_lock "4242"); (17870, plain_lock "111")]
                 idle_conn)))
    = (Ok 17870, s2).
Proof.
  destruct (X8_allocation_repeatable sample_env sample_identity
              (state_with [(17850, plain_lock "4242"); (17870, plain_lock "111")]
                 idle_conn)
              (snd (ports_from sample_env sample_identity
                      (state_with [(17850, plain_lock "4242");
                                   (17870, plain_lock "111")] idle_conn)))
              17870 ltac:(vm_compute; reflexivity)) as (s2 & Hrun & _).
  exists s2. exact Hrun.
Defined.

(** X9: when no lock file exists at the candidate base port of an identity,
    allocation returns that port at once: no file is touched and no warning
    is logged. *)
Theorem X9_free_base_port (env : Env) (identity : string) (s s1 : State)
    (offset : Z) :
  instance_port_offset identity s = (Ok offset, s1) ->
  files s !! pid_file_of (JANUS_BASE_PORT + offset) = None ->
  ports_from env identity s = (Ok (JANUS_BASE_PORT + offset), s1)
  /\ files s1 = files s.
Proof.
  intros Hoff Hnone.
  assert (Hfiles : files s1 = files s).
  { destruct (instance_port_offset_returns identity s) as (o & s2 & Hr & Hf & _).
    rewrite Hoff in Hr. now injection Hr as _ <-. }
  split; [|exact Hfiles].
  unfold ports_from, bind. rewrite Hoff.
  set (base := JANUS_BASE_PORT + offset) in *.
  change (seqZ 0 5) with ([] ++ 0 :: seqZ 1 4).
  rewrite probe_ports_first_free.
  - replace (base + 0 * JANUS_PORT_GAP) with base by lia.
    unfold remove_if_allowed. rewrite Hfiles, Hnone, <- Hfiles.
    now rewrite set_files_same.
  - intros j [].
  - replace (base + 0 * JANUS_PORT_GAP) with base by lia.
    unfold lock_holder_alive. now rewrite Hfiles, Hnone.
Qed.

Lemma X9_witness :
  fst (ports_from sample_env sample_identity
         (state_with [(17870, plain_lock "4242")] idle_conn)) = Ok 17850.
Proof.
  rewrite (proj1 (X9_free_base_port sample_env sample_identity
                    (state_with [(17870, plain_lock "4242")] idle_conn)
                    (snd (instance_port_offset sample_identity
                            (state_with [(17870, plain_lock "4242")] idle_conn)))
                    120 ltac:(vm_compute; reflexivity)
                    ltac:(vm_compute; reflexivity))).
  reflexivity.
Defined.

(** X10: two ports returned by allocation, for any identities and in any
    states, are equal or at least 20 apart: the admin port of one
    assignment, its port plus 1, is never the port of another. *)
Theorem X10_port_blocks_apart (env env' : Env) (identity identity' : string)
    (s s' t t' : State) (port port' : Z) :
  ports_from env identity s = (Ok port, t) ->
  ports_from env' identity' s' = (Ok port', t') ->
  (port = port' \/ 20 <= Z.abs (port - port')) /\ port' <> port + 1.
Proof.
  intros Hrun Hrun'.
  destruct (ports_from_cases env identity s)
    as (slot & u & Hslot & _ & _ & _ & _ & _ & _ & Hc).
  destruct (ports_from_cases env' identity' s')
    as (slot' & u' & Hslot' & _ & _ & _ & _ & _ & _ & Hc').
  cbv zeta in Hc, Hc'. unfold JANUS_BASE_PORT, JANUS_PORT_GAP in Hc, Hc'.
  destruct Hc as [[_ Hp] | (k & Hk & _ & _ & Hp)];
    destruct Hc' as [[_ Hp'] | (k' & Hk' & _ & _ & Hp')];
    rewrite Hrun in Hp; rewrite Hrun' in Hp';
    injection Hp as -> _; injection Hp' as -> _; lia.
Qed.

(** ** Starting the gateway *)

Lemma insert_remove_if_allowed (env : Env) (s : State) (f : lockfile) :
  reclaimable env s ->
  <[janus_pid_file_path env := f]>
    (remove_if_allowed (janus_pid_file_path env) (files s))
  = <[janus_pid_file_path env := f]> (files s).
Proof.
  unfold reclaimable, remove_if_allowed.
  destruct (files s !! janus_pid_file_path env) as [g|]; [|reflexivity].
  intros ->. apply insert_delete_eq.
Qed.

(** What [start] does once the child is spawned, whatever the waits say. *)
Lemma start_spawned (env : Env) (janus_bin_path ld_lib_path : string)
    (janus_proc : process) (s : State) :
  spawns env janus_bin_path ld_lib_path janus_proc ->
  reclaimable env s ->
  let ready := port_opens env (janus_server (self s)) (JANUS_WS_PORT env)
               && ws_handshake env (janus_ws_url env (janus_server (self s))) in
  exists s',
    start env janus_bin_path ld_lib_path s
    = (if ready then Ok tt else Raise TimeoutError, s')
    /\ files s' = <[janus_pid_file_path env := written_lock janus_proc]> (files s)
    /\ janus_ws (self s')
       = (if ready then Some (janus_link env (janus_server (self s)))
          else janus_ws (self s))
    /\ janus_server (self s') = janus_server (self s)
    /\ shutting_down (self s') = shutting_down (self s)
    /\ sentry s' = sentry s
    /\ signals s' = signals s ++ reclaim_signals env s
    /\ upstream s' = upstream s.
Proof.
  intros Hspawn Hrec ready. unfold start.
  unfold bind at 1.
  destruct (kill_janus_if_running_run env s)
    as (s1 & -> & _ & Hf1 & Hsig1 & Hsen1 & Hup1 & Hself1).
  assert (Hgone : files s1 !! janus_pid_file_path env = None).
  { rewrite Hf1. unfold remove_if_allowed. unfold reclaimable in Hrec.
    destruct (files s !! janus_pid_file_path env) as [g|] eqn:Hg; [|exact Hg].
    rewrite Hrec. apply lookup_delete_eq. }
  unfold bind at 1, run_in_thread at 1.
  unfold run_janus_forever_spawn, spawn_janus, Popen, captureException.
  unfold spawns in Hspawn. rewrite Hspawn. run_monad. cbn. rewrite Hgone. cbn.
  unfold wait_for_janus, wait_for_port, start_janus_ws, WebSocketClient_new.
  run_monad. cbn. rewrite Hself1.
  fold (janus_ws_url env (janus_server (self s))).
  subst ready.
  destruct (port_opens env (janus_server (self s)) (JANUS_WS_PORT env));
    repeat (progress (cbn; rewrite ?Hself1));
    fold (janus_ws_url env (janus_server (self s)));
    [destruct (ws_handshake env (janus_ws_url env (janus_server (self s)))); cbn|];
    eexists; (split; [reflexivity|]); cbn;
    rewrite ?Hself1, Hsen1, Hsig1, Hup1, Hf1;
    (split; [now apply insert_remove_if_allowed|]);
    repeat split; reflexivity.
Qed.

(** X11: when the child is spawned, the port opens in time and the relay
    link connects, [start] returns normally, the lock file of the instance's
    port holds the child's pid in decimal, no other lock file is touched,
    the relay link is attached and connected, and nothing is reported. *)
Theorem X11_start_succeeds (env : Env) (janus_bin_path ld_lib_path : string)
    (janus_proc : process) (s : State) :
  spawns env janus_bin_path ld_lib_path janus_proc ->
  reclaimable env s ->
  port_opens env (janus_server (self s)) (JANUS_WS_PORT env) = true ->
  ws_handshake env (janus_ws_url env (janus_server (self s))) = true ->
  exists s',
    start env janus_bin_path ld_lib_path s = (Ok tt, s')
    /\ files s' !! janus_pid_file_path env = Some (written_lock janus_proc)
    /\ (forall path, path <> janus_pid_file_path env ->
          files s' !! path = files s !! path)
    /\ janus_ws (self s') = Some (janus_link env (janus_server (self s)))
    /\ fst (connected s') = Ok true
    /\ shutting_down (self s') = shutting_down (self s)
    /\ sentry s' = sentry s.
Proof.
  intros Hspawn Hrec Hopen Hws.
  destruct (start_spawned env janus_bin_path ld_lib_path janus_proc s Hspawn Hrec)
    as (s' & Hrun & Hf & Hlink & _ & Hflag & Hsen & _).
  rewrite Hopen, Hws in Hrun, Hlink. cbn in Hrun, Hlink.
  exists s'. split; [exact Hrun|]. rewrite Hf.
  split; [apply lookup_insert_eq|].
  split; [intros path Hne; now apply lookup_insert_ne|].
  split; [exact Hlink|].
  split; [unfold connected; run_monad; cbn; now rewrite Hlink|].
  split; assumption.
Qed.

Lemma X11_witness :
  exists s',
    start sample_env "/usr/bin/janus" "/usr/lib/janus"
      (state_with [(17850, plain_lock "31337")] idle_conn) = (Ok tt, s')
    /\ files s' !! pid_file_of 17850 = Some (plain_lock "5150").
Proof.
  destruct (X11_start_succeeds sample_env "/usr/bin/janus" "/usr/lib/janus"
              (mkProcess 5150 ["Janus started"; "Listening"] 0)
              (state_with [(17850, plain_lock "31337")] idle_conn)
              eq_refl eq_refl eq_refl eq_refl) as (s' & Hrun & Hlock & _).
  exists s'. split; [exact Hrun | exact Hlock].
Defined.



(** X13: a [shutdown] that follows a [start] which spawned the child,
    whether that start returned or timed out, signals exactly the pid that
    start recorded, removes the lock file of the instance's port and no
    other, detaches the relay link and sets the shutdown flag. *)
Theorem X13_shutdown_after_start (env : Env) (janus_bin_path ld_lib_path : string)
    (janus_proc : process) (s : State) :
  spawns env janus_bin_path ld_lib_path janus_proc ->
  reclaimable env s ->
  let s1 := snd (start env janus_bin_path ld_lib_path s) in
  exists s2,
    shutdown env s1 = (Ok tt, s2)
    /\ signals s2 = signals s1 ++ [pretty (proc_pid janus_proc)]
    /\ files s2 !! janus_pid_file_path env = None
    /\ (forall path, path <> janus_pid_file_path env ->
          files s2 !! path = files s !! path)
    /\ self s2 = closed_conn (self s).
Proof.
  intros Hspawn Hrec s1.
  destruct (start_spawned env janus_bin_path ld_lib_path janus_proc s Hspawn Hrec)
    as (t & Hrun & Hf & _ & Hsrv & _).
  assert (Hs1 : s1 = t) by (subst s1; now rewrite Hrun). rewrite Hs1.
  destruct (shutdown_run env t) as (s2 & Hsd & Hself & Hf2 & Hsig & _).
  assert (Hlock : files t !! janus_pid_file_path env = Some (written_lock janus_proc))
    by (rewrite Hf; apply lookup_insert_eq).
  exists s2. split; [exact Hsd|].
  split; [rewrite Hsig; unfold reclaim_signals; now rewrite Hlock|].
  rewrite Hf2. unfold remove_if_allowed. rewrite Hlock. cbn.
  split; [apply lookup_delete_eq|].
  split.
  - intros path Hne. rewrite lookup_delete_ne by congruence.
    rewrite Hf. now apply lookup_insert_ne.
  - rewrite Hself. unfold closed_conn. now rewrite Hsrv.
Qed.

Lemma X13_witness :
  signals (snd (shutdown sample_env
                  (snd (start sample_env "/usr/bin/janus" "/usr/lib/janus"
                          (state_with [] idle_conn)))))
  = ["5150"].
Proof.
  destruct (X13_shutdown_after_start sample_env "/usr/bin/janus" "/usr/lib/janus"
              (mkProcess 5150 ["Janus started"; "Listening"] 0)
              (state_with [] idle_conn) eq_refl I) as (s2 & Hsd & Hsig & _).
  rewrite Hsd. exact Hsig.
Defined.

(** X14: when the child is spawned but the port does not open in time, or
    the relay link does not connect, [start] raises the timeout; the lock
    file with the child's pid stays in place and the relay link is left as
    it was. *)
Theorem X14_start_times_out (env : Env) (janus_bin_path ld_lib_path : string)
    (janus_proc : process) (s : State) :
  spawns env janus_bin_path ld_lib_path janus_proc ->
  reclaimable env s ->
  port_opens env (janus_server (self s)) (JANUS_WS_PORT env) = false
  \/ ws_handshake env (janus_ws_url env (janus_server (self s))) = false ->
  exists s',
    start env janus_bin_path ld_lib_path s = (Raise TimeoutError, s')
    /\ files s' !! janus_pid_file_path env = Some (written_lock janus_proc)
    /\ janus_ws (self s') = janus_ws (self s)
    /\ sentry s' = sentry s.
Proof.
  intros Hspawn Hrec Hfail.
  destruct (start_spawned env janus_bin_path ld_lib_path janus_proc s Hspawn Hrec)
    as (s' & Hrun & Hf & Hlink & _ & _ & Hsen & _).
  assert (Hready : port_opens env (janus_server (self s)) (JANUS_WS_PORT env)
                   && ws_handshake env (janus_ws_url env (janus_server (self s)))
                   = false).
  { destruct Hfail as [-> | ->]; [reflexivity | apply andb_false_r]. }
  rewrite Hready in Hrun, Hlink.
  exists s'. split; [exact Hrun|]. rewrite Hf.
  split; [apply lookup_insert_eq|]. split; assumption.
Qed.

Lemma X14_witness :
  exists s',
    start slow_port_env "/usr/bin/janus" "/usr/lib/janus" (state_with [] idle_conn)
    = (Raise TimeoutError, s')
    /\ files s' !! pid_file_of 17850 = Some (plain_lock "5150").
Proof.
  destruct (X14_start_times_out slow_port_env "/usr/bin/janus" "/usr/lib/janus"
              (mkProcess 5150 ["Janus started"] 0) (state_with [] idle_conn)
              eq_refl I (or_introl eq_refl)) as (s' & Hrun & Hlock & _).
  exists s'. split; [exact Hrun | exact Hlock].
Defined.

(** X15: when the pid file exists and cannot be written, the thread spawns
    the child, fails on the pid file, and ends there: the permission error
    is reported to the error-reporting collaborator, the files are as
    before, and none of the child's output is ever logged, nor its exit. *)
Theorem X15_unwritable_pid_file (env : Env) (janus_bin_path ld_lib_path : string)
    (janus_proc : process) (s : State) (f : lockfile) :
  spawns env janus_bin_path ld_lib_path janus_proc ->
  files s !! janus_pid_file_path env = Some f ->
  lf_writable f = false ->
  exists s',
    run_janus_forever env janus_bin_path ld_lib_path s = (Ok tt, s')
    /\ sentry s' = sentry s ++ [PermissionError]
    /\ files s' = files s
    /\ log s' = log s ++ [popen_record env janus_bin_path ld_lib_path].
Proof.
  intros Hspawn Hf Hw.
  unfold run_janus_forever, spawn_janus, Popen, captureException.
  unfold spawns in Hspawn. rewrite Hspawn. run_monad. cbn.
  rewrite Hf, Hw. cbn.
  eexists. split; [reflexivity|]. destruct s; cbn. repeat split; reflexivity.
Qed.

Lemma X15_witness :
  exists s',
    run_janus_forever sample_env "/usr/bin/janus" "/usr/lib/janus"
      (state_with [(17850, unwritable_lock)] idle_conn) = (Ok tt, s')
    /\ sentry s' = [PermissionError].
Proof.
  destruct (X15_unwritable_pid_file sample_env "/usr/bin/janus" "/usr/lib/janus"
              (mkProcess 5150 ["Janus started"; "Listening"] 0)
              (state_with [(17850, unwritable_lock)] idle_conn) unwritable_lock
              eq_refl eq_refl eq_refl) as (s' & Hrun & Hsentry & _).
  exists s'. split; [exact Hrun | exact Hsentry].
Defined.

(** ** The monitoring loop *)



(** ** The relay link, over several messages *)

(** X17: on a connected link the messages handed to [pass_to_janus] are all
    sent, in the order given; the link stays connected and nothing else
    changes. *)
Theorem X17_sends_in_order (msgs : list string) (s : State)
    (ws : WebSocketClient) :
  janus_ws (self s) = Some ws ->
  ws_connected ws = true ->
  exists s',
    pass_all msgs s = (Ok tt, s')
    /\ janus_ws (self s')
       = Some (mkWebSocketClient (ws_url ws) (ws_subprotocols ws) true
                 (ws_sent ws ++ msgs))
    /\ files s' = files s /\ log s' = log s /\ sentry s' = sentry s
    /\ signals s' = signals s /\ upstream s' = upstream s
    /\ shutting_down (self s') = shutting_down (self s).
Proof.
  revert s ws. induction msgs as [|msg msgs IH]; intros s ws Hws Hconn.
  - exists s. split; [reflexivity|]. rewrite Hws, app_nil_r.
    destruct ws; cbn in *. subst. repeat split; reflexivity.
  - cbn [pass_all]. unfold bind at 1.
    unfold pass_to_janus, connected. run_monad. cbn. rewrite Hws, Hconn. cbn.
    rewrite Hws. cbn [fmap option_fmap option_map].
    destruct (IH (set_janus_ws (Some (ws_send msg ws)) s) (ws_send msg ws))
      as (s' & -> & Hlink & Hrest).
    + reflexivity.
    + exact Hconn.
    + exists s'. split; [reflexivity|]. rewrite Hlink. cbn.
      rewrite <- app_assoc. split; [reflexivity|]. destruct s; exact Hrest.
Qed.

Lemma X17_witness :
  (ws_sent <$> janus_ws (self (snd (pass_all ["a"; "b"; "c"]
      (state_with [] (mkJanusConn "127.0.0.1" (Some open_link) false))))))
  = Some ["a"; "b"; "c"].
Proof.
  destruct (X17_sends_in_order ["a"; "b"; "c"]
              (state_with [] (mkJanusConn "127.0.0.1" (Some open_link) false))
              open_link eq_refl eq_refl) as (s' & Hrun & Hlink & _).
  rewrite Hrun. cbn [snd]. rewrite Hlink. reflexivity.
Defined.

(** X18: after [shutdown], whatever the state it was called in and however
    the reclaim went, the shutdown flag is set, no relay link is attached,
    and a message handed to [pass_to_janus] is dropped without effect. *)
Theorem X18_no_send_after_shutdown (env : Env) (s : State) (msg : string) :
  exists s1,
    shutdown env s = (Ok tt, s1)
    /\ shutting_down (self s1) = true
    /\ janus_ws (self s1) = None
    /\ fst (connected s1) = Ok false
    /\ pass_to_janus msg s1 = (Ok tt, s1).
Proof.
  destruct (shutdown_run env s) as (s1 & Hrun & Hself & _).
  exists s1. split; [exact Hrun|].
  unfold pass_to_janus, connected. run_monad. cbn. rewrite Hself. cbn.
  repeat split; reflexivity.
Qed.





(** ** Lock files and the reclaim step *)

(** X20: two ports have the same lock file path only when they are the
    same port. *)
Theorem X20_lock_path_per_port (p q : Z) :
  pid_file_of p = pid_file_of q <-> p = q.
Proof. split; [apply pid_file_of_inj | now intros ->]. Qed.


(** X22: once the reclaim step has run on a lock file that is absent or
    removable, no lock file is left at the instance's port, and the
    allocation test accepts that port without touching anything. *)
Theorem X22_port_free_after_reclaim (env : Env) (s : State) :
  reclaimable env s ->
  exists s',
    kill_janus_if_running env s = (Ok tt, s')
    /\ files s' !! janus_pid_file_path env = None
    /\ probe_port env (JANUS_WS_PORT env) s' = (Ok (Some (JANUS_WS_PORT env)), s').
Proof.
  intros Hrec.
  destruct (kill_janus_if_running_run env s) as (s' & Hrun & _ & Hf & _).
  assert (Hgone : files s' !! janus_pid_file_path env = None).
  { rewrite Hf. unfold remove_if_allowed. unfold reclaimable in Hrec.
    destruct (files s !! janus_pid_file_path env) as [g|] eqn:Hg; [|exact Hg].
    rewrite Hrec. apply lookup_delete_eq. }
  exists s'. split; [exact Hrun|]. split; [exact Hgone|].
  rewrite probe_port_not_live.
  - unfold remove_if_allowed. fold (janus_pid_file_path env). rewrite Hgone.
    now rewrite set_files_same.
  - unfold lock_holder_alive. fold (janus_pid_file_path env). now rewrite Hgone.
Qed.

Lemma X22_witness :
  exists s',
    kill_janus_if_running sample_env
      (state_with [(17850, plain_lock "4242")] idle_conn) = (Ok tt, s')
    /\ files s' !! pid_file_of 17850 = None.
Proof.
  destruct (X22_port_free_after_reclaim sample_env
              (state_with [(17850, plain_lock "4242")] idle_conn) eq_refl)
    as (s' & Hrun & Hgone & _).
  exists s'. split; [exact Hrun | exact Hgone].
Defined.

Lemma lstrip_all_space (s : string) :
  all_chars is_space s = true -> lstrip s = EmptyString.
Proof.
  induction s as [|c s IH]; [reflexivity|]. cbn [all_chars lstrip].
  intros H. apply andb_prop in H as [-> Hs]. now apply IH.
Qed.

(** X23: a lock file that is empty or holds only white space, as left by a
    writer that stopped between opening the file and writing the pid, is not
    an integer: allocation treats it as stale, attempts its removal and
    returns the port. *)
Theorem X23_blank_lock_is_stale (env : Env) (s : State) (port : Z) (f : lockfile) :
  files s !! pid_file_of port = Some f ->
  all_chars is_space (lf_content f) = true ->
  lock_pid f = None
  /\ probe_port env port s
     = (Ok (Some port),
        set_files (remove_if_allowed (pid_file_of port) (files s)) s).
Proof.
  intros Hf Hblank.
  assert (Hpid : lock_pid f = None).
  { unfold lock_pid. destruct (lf_readable f); [|reflexivity].
    unfold py_int, strip. rewrite (lstrip_all_space _ Hblank). reflexivity. }
  split; [exact Hpid|]. apply probe_port_not_live.
  unfold lock_holder_alive. now rewrite Hf, Hpid.
Qed.

Lemma X23_witness :
  fst (probe_port sample_env 17850
         (state_with [(17850, plain_lock EmptyString)] idle_conn))
  = Ok (Some 17850).
Proof.
  rewrite (proj2 (X23_blank_lock_is_stale sample_env
                    (state_with [(17850, plain_lock EmptyString)] idle_conn)
                    17850 (plain_lock EmptyString) eq_refl eq_refl)).
  reflexivity.
Defined.

Lemma X10_witness :
  (17850 = 17870 \/ 20 <= Z.abs (17850 - 17870)) /\ 17870 <> 17850 + 1.
Proof.
  exact (X10_port_blocks_apart sample_env sample_env sample_identity sample_identity
           (state_with [] idle_conn)
           (state_with [(17850, plain_lock "4242")] idle_conn)
           (snd (ports_from sample_env sample_identity (state_with [] idle_conn)))
           (snd (ports_from sample_env sample_identity
                   (state_with [(17850, plain_lock "4242")] idle_conn)))
           17850 17870
           ltac:(vm_compute; reflexivity) ltac:(vm_compute; reflexivity)).
Defined.
